(** * Rule-based email triage server (mcp_email_classifier/server.py)

    A shallow embedding of the [MCPServer] class and of the [call_tool]
    HTTP endpoint, followed by the properties of the triage engine.

    Conventions.
    - A Python [str] is a Rocq [string] holding its UTF-8 encoding.  Substring
      search on the encodings agrees with substring search on code points
      (UTF-8 is self-synchronising), and ['@'] is a single byte.
    - A Python [float] is a primitive binary64 float; [int] is [Z].
    - An [async def] is a computation in the monad [Py]: it reads the wall
      clock, appends to standard output and either returns or raises.
    - Builtins of the Python runtime whose definition is not part of the
      repository ([str.lower], [re.findall], the text of an argument-binding
      [TypeError], [str(e)]) are parameters of the development.
    - The keyword arguments that reach the dispatcher map names to strings,
      as the annotations of the tools ask. *)

From Stdlib Require Import Floats.PrimFloat Uint63 ZArith Ascii.
From stdpp Require Import gmap strings list fin_maps.

Set Warnings "-inexact-float".
Set Default Proof Using "Type".
Local Open Scope string_scope.
Local Open Scope Z_scope.

(* ===================================================================== *)
(** ** Python strings *)
(* ===================================================================== *)

(** [s.startswith(p)] *)
Fixpoint startswith (p s : string) : bool :=
  match p with
  | EmptyString => true
  | String a p' =>
      match s with
      | EmptyString => false
      | String b s' => if Ascii.eqb a b then startswith p' s' else false
      end
  end.

(** [needle in hay] for two strings: [needle] occurs at some offset. *)
Fixpoint str_in (needle hay : string) : bool :=
  startswith needle hay
  || match hay with
     | EmptyString => false
     | String _ hay' => str_in needle hay'
     end.

(** [s.split(sep)] for a one-character separator. *)
Fixpoint str_split (sep : Ascii.ascii) (s : string) : list string :=
  match s with
  | EmptyString => [EmptyString]
  | String c s' =>
      if Ascii.eqb c sep then EmptyString :: str_split sep s'
      else match str_split sep s' with
           | [] => [String c EmptyString]
           | piece :: pieces => String c piece :: pieces
           end
  end.

(** A UTF-8 continuation byte has the form 10xxxxxx. *)
Definition is_continuation (c : Ascii.ascii) : bool :=
  let n := Z.of_N (Ascii.N_of_ascii c) in (128 <=? n) && (n <? 192).

(** [len(s)]: the number of code points, that is, of bytes that do not
    continue a multi-byte sequence. *)
Fixpoint py_len (s : string) : Z :=
  match s with
  | EmptyString => 0
  | String c s' => (if is_continuation c then 0 else 1) + py_len s'
  end.

(** [str.lower] restricted to ASCII letters; the instance of the [lower]
    parameter used to run the model on ASCII inputs. *)
Definition ascii_lower_char (c : Ascii.ascii) : Ascii.ascii :=
  let n := Ascii.N_of_ascii c in
  if ((65 <=? n) && (n <=? 90))%N then Ascii.ascii_of_N (n + 32) else c.

Fixpoint ascii_lower (s : string) : string :=
  match s with
  | EmptyString => EmptyString
  | String c s' => String (ascii_lower_char c) (ascii_lower s')
  end.

(* ===================================================================== *)
(** ** Python numbers *)
(* ===================================================================== *)

(** [min(a, b)] on floats: the first argument unless the second is smaller. *)
Definition py_min (a b : float) : float :=
  if PrimFloat.ltb b a then b else a.

(** Conversion of an [int] to [float]; exact for |z| < 2^53. *)
Definition float_of_Z (z : Z) : float :=
  if z <? 0 then PrimFloat.opp (PrimFloat.of_uint63 (Uint63.of_Z (- z)))
  else PrimFloat.of_uint63 (Uint63.of_Z z).

(* ===================================================================== *)
(** ** The monad of Python computations *)
(* ===================================================================== *)

Inductive exn : Type :=
| TypeError (msg : string)
| ZeroDivisionError
| IndexError
| HTTPException (status_code : Z) (detail : string).

(** What a computation can observe and change: the reading of
    [datetime.now().isoformat()] and the lines printed so far. *)
Record World : Type := mkWorld {
  wall_clock : string;
  stdout : list string
}.

Inductive outcome (A : Type) : Type :=
| Ret (a : A)
| Raise (e : exn).
Arguments Ret {A} a.
Arguments Raise {A} e.

Definition Py (A : Type) : Type := World -> outcome A * World.

Definition ret {A} (a : A) : Py A := fun w => (Ret a, w).

Definition raise {A} (e : exn) : Py A := fun w => (Raise e, w).

Definition bind {A B} (m : Py A) (k : A -> Py B) : Py B :=
  fun w =>
    match m w with
    | (Ret a, w') => k a w'
    | (Raise e, w') => (Raise e, w')
    end.

Notation "x <- m ;; k" := (bind m (fun x => k))
  (at level 100, m at next level, right associativity).
Notation "'do' m ;; k" := (bind m (fun _ => k))
  (at level 100, m at next level, right associativity).

(** [try: m  except Exception as e: handler e] *)
Definition try_except {A} (m : Py A) (handler : exn -> Py A) : Py A :=
  fun w =>
    match m w with
    | (Ret a, w') => (Ret a, w')
    | (Raise e, w') => handler e w'
    end.

Definition print (line : string) : Py unit :=
  fun w => (Ret tt, mkWorld (wall_clock w) (stdout w ++ [line])%list).

Definition datetime_now_isoformat : Py string :=
  fun w => (Ret (wall_clock w), w).

(** [l[-1]] *)
Definition index_last {A} (l : list A) : Py A :=
  match last l with
  | Some x => ret x
  | None => raise IndexError
  end.

(** [a / b] on two ints: true division.  The quotient of the two
    conversions is the correctly rounded quotient whenever both operands
    are below 2^53, which is the case for keyword counts. *)
Definition truediv (a b : Z) : Py float :=
  if b =? 0 then raise ZeroDivisionError
  else ret (PrimFloat.div (float_of_Z a) (float_of_Z b)).

(* ===================================================================== *)
(** ** Result records *)
(* ===================================================================== *)

Record ClassificationResult : Type := mkClassification {
  category : string;
  confidence : float;
  analysis_time : string;
  sender_domain : string
}.

Record ResponseSuggestion : Type := mkSuggestion {
  suggested_response : string;
  suggestion_category : string;
  tone : string;
  response_length : Z
}.

Record UrgencyResult : Type := mkUrgency {
  urgency_score : Z;
  deadlines : list string;
  has_urgency : bool;
  urgency_level : string
}.

Record SentimentResult : Type := mkSentiment {
  sentiment : string;
  positive_indicators : Z;
  negative_indicators : Z;
  sentiment_confidence : float
}.

(** The dictionaries [handle_request] can return: the result of a tool, or
    [{"error": ...}]. *)
Inductive tool_result : Type :=
| OfClassification (r : ClassificationResult)
| OfSuggestion (r : ResponseSuggestion)
| OfUrgency (r : UrgencyResult)
| OfSentiment (r : SentimentResult)
| ErrorDict (error : string).

(** [{"success": True, "result": result}] *)
Record Envelope : Type := mkEnvelope {
  success : bool;
  result : tool_result
}.



(** The dictionary [rule_based_classify] of mcp.py returns. *)
Record RuleResult : Type := mkRuleResult {
  label : string;
  reason : string
}.

(* ===================================================================== *)
(** ** Instances of the runtime parameters, used to run the model *)
(* ===================================================================== *)

(** [re.findall] on a text in which no pattern matches. *)
Definition no_match (pattern text : string) : list string := [].

(** A rendering of the argument-binding [TypeError]. *)
Definition bind_error_text (fname : string) (kwargs : gmap string string) : string :=
  fname +:+ "() got keyword arguments it cannot bind".

(** [str(e)] for the exceptions of the model. *)
Definition exn_text (e : exn) : string :=
  match e with
  | TypeError msg => msg
  | ZeroDivisionError => "division by zero"
  | IndexError => "list index out of range"
  | HTTPException _ detail => detail
  end.

(** A world in which nothing has been printed yet. *)
Definition world0 : World := mkWorld "2024-05-12T10:00:00" [].

(* ===================================================================== *)
(** ** main.py: the health endpoint of the automation server *)
(* ===================================================================== *)

(** The two dictionaries [health_check] can return. *)
Inductive HealthReport : Type :=
| HealthStatus (status redis gmail_api : string)
| HealthError (status error : string).

Definition report_status (r : HealthReport) : string :=
  match r with
  | HealthStatus status _ _ => status
  | HealthError status _ => status
  end.

Section Health.

(** [redis_client.ping()] *)
Variable redis_ping : Py bool.
(** Whether [gmail_handler.service] is set. *)
Variable service : bool.
(** [self.service.users().getProfile(userId='me').execute()] *)
Variable get_profile : Py unit.
(** [str(e)] *)
Variable exn_str : exn -> string.

(** [GmailHandler.health_check] *)
Definition gmail_health_check : Py bool :=
  try_except
    (if service then (do get_profile ;; ret true) else ret false)
    (fun _ => ret false).

(** [GET /health] of main.py *)
Definition health_check : Py HealthReport :=
  try_except
    (redis_ok <- redis_ping ;;
     gmail_ok <- gmail_health_check ;;
     ret (HealthStatus
            (if forallb (fun ok => ok) [redis_ok; gmail_ok] then "healthy"
             else "degraded")
            (if redis_ok then "ok" else "error")
            (if gmail_ok then "ok" else "error")))
    (fun e => ret (HealthError "unhealthy" (exn_str e))).

End Health.

(* ===================================================================== *)
(** ** mcp.py: the rule-based classifier of the MCP tool *)
(* ===================================================================== *)

Section RuleBased.

(** [str.lower] *)
Variable lower : string -> string.

(** The keyword lists written in the three tests of [rule_based_classify]. *)
Definition rule_spam_words : list string :=
  ["win"; "free"; "click here"; "unsubscribe"; "prize"].
Definition rule_urgent_words : list string :=
  ["error"; "failed"; "urgent"; "asap"; "help"; "immediate"].
Definition rule_support_words : list string :=
  ["ticket"; "support"; "helpdesk"; "support@"].

Definition rule_based_classify (subject body : string) : RuleResult :=
  let text := lower (subject +:+ " " +:+ body) in
  if existsb (fun k => str_in k text) rule_spam_words then
    mkRuleResult "Spam" "palabras típicas de spam"
  else if existsb (fun k => str_in k text) rule_urgent_words then
    mkRuleResult "Urgente" "menciones de urgencia/errores"
  else if existsb (fun k => str_in k text) rule_support_words then
    mkRuleResult "Soporte" "parece solicitud de soporte"
  else
    mkRuleResult "Interesante" "no coincide con reglas previas".

End RuleBased.

(* ===================================================================== *)
(** ** class MCPServer *)
(* ===================================================================== *)

Section MCPServer.

(** [str.lower] *)
Variable lower : string -> string.
(** [re.findall(pattern, s, re.IGNORECASE)] *)
Variable findall : string -> string -> list string.
(** The message of the [TypeError] raised when the keyword arguments
    [kwargs] cannot be bound to the parameters of the function [fname]. *)
Variable bind_error : string -> gmap string string -> string.
(** [str(e)] *)
Variable exn_str : exn -> string.

(** The keyword lists local to [_determine_category]. *)
Definition urgent_indicators : list string :=
  ["urgent"; "asap"; "emergency"; "crítico"; "importante"; "deadline"; "hoy"].
Definition spam_indicators : list string :=
  ["offer"; "win"; "prize"; "gratis"; "descuento"; "click here"; "limited time"].
Definition newsletter_indicators : list string :=
  ["newsletter"; "bulletin"; "update"; "digest"].
Definition support_indicators : list string :=
  ["help"; "soporte"; "support"; "problem"; "issue"; "error"].

(** Some keyword of the list occurs in the content: what
    [any(indicator in content for indicator in indicators)] tests. *)
Definition mentions (indicators : list string) (content : string) : Prop :=
  exists indicator, In indicator indicators /\ str_in indicator content = true.

Definition _determine_category (content sender : string) : Py string :=
  if existsb (fun indicator => str_in indicator content) urgent_indicators then
    ret "URGENT"
  else if existsb (fun indicator => str_in indicator content) spam_indicators then
    ret "SPAM"
  else if existsb (fun indicator => str_in indicator content) newsletter_indicators then
    ret "NEWSLETTER"
  else if existsb (fun indicator => str_in indicator content) support_indicators then
    ret "SUPPORT"
  else if str_in "newsletter" (lower sender) then
    ret "NEWSLETTER"
  else
    ret "IMPORTANT".

Definition strong_indicators : gmap string (list string) :=
  {[ "URGENT" := ["urgent"; "asap"; "emergency"];
     "SPAM" := ["win"; "prize"; "free"];
     "NEWSLETTER" := ["newsletter"; "unsubscribe"];
     "SUPPORT" := ["help"; "soporte"; "problem"] ]}.

Definition _calculate_confidence (content category : string) : Py float :=
  let base_confidence := 0.7%float in
  let base_confidence :=
    fold_left
      (fun base_confidence indicator =>
         if str_in indicator content then (base_confidence + 0.15)%float
         else base_confidence)
      (default [] (strong_indicators !! category))
      base_confidence in
  ret (py_min base_confidence 0.95%float).

Definition classify_email (email_content sender subject : string)
  : Py ClassificationResult :=
  do print ("🔍 Clasificando email: " +:+ subject) ;;
  let content_lower := lower (email_content +:+ " " +:+ subject) in
  category <- _determine_category content_lower sender ;;
  confidence <- _calculate_confidence content_lower category ;;
  analysis_time <- datetime_now_isoformat ;;
  sender_domain <-
    (if str_in "@" sender then index_last (str_split "@"%char sender)
     else ret "unknown") ;;
  ret (mkClassification category confidence analysis_time sender_domain).

Definition responses : gmap string (gmap string string) :=
  {[ "URGENT" :=
       {[ "professional" := "He recibido su mensaje urgente. Lo revisaré inmediatamente y le responderé en un plazo máximo de 2 horas.";
          "friendly" := "¡Gracias por el mensaje! Lo reviso ahora mismo y te respondo pronto." ]};
     "SUPPORT" :=
       {[ "professional" := "Gracias por contactar a soporte. Hemos recibido su consulta y le asignaremos un ticket. Le responderemos en un plazo de 24 horas.";
          "friendly" := "¡Hola! Recibimos tu consulta de soporte. Te ayudaremos lo antes posible." ]};
     "IMPORTANT" :=
       {[ "professional" := "He recibido su mensaje. Lo revisaré y le daré seguimiento apropiado durante el día.";
          "friendly" := "¡Gracias por tu mensaje! Lo revisaré hoy mismo y te respondo." ]};
     "NEWSLETTER" :=
       {[ "professional" := "Gracias por la información. La revisaré cuando tenga disponibilidad.";
          "friendly" := "¡Gracias por el newsletter! Lo leeré cuando tenga un momento." ]} ]}.

Definition suggest_response (email_content category tone : string)
  : Py ResponseSuggestion :=
  do print ("💡 Generando respuesta para categoría: " +:+ category) ;;
  let suggested_response :=
    default "He recibido su mensaje. Le responderé pronto."
            (default ∅ (responses !! category) !! tone) in
  ret (mkSuggestion suggested_response category tone (py_len suggested_response)).

(** The keyword lists and date patterns local to [extract_urgency]. *)
Definition urgency_keywords : list string :=
  ["urgent"; "asap"; "emergency"; "immediately"; "now"; "hoy"; "inmediato"; "crítico"].
Definition deadline_keywords : list string :=
  ["deadline"; "by"; "before"; "hasta"; "para el"].
Definition date_patterns : list string :=
  ["\b\d{1,2}/\d{1,2}/\d{4}\b";
   "\b\d{1,2}-\d{1,2}-\d{4}\b";
   "\b\d{1,2} de [a-zA-Z]+ de \d{4}\b"].

Definition extract_urgency (email_content : string) : Py UrgencyResult :=
  do print "⏰ Analizando urgencia del email" ;;
  let dates_found :=
    fold_left
      (fun dates_found pattern => (dates_found ++ findall pattern email_content)%list)
      date_patterns [] in
  let urgency_score := 0 in
  let content_lower := lower email_content in
  let urgency_score :=
    fold_left
      (fun urgency_score keyword =>
         if str_in keyword content_lower then urgency_score + 1 else urgency_score)
      urgency_keywords urgency_score in
  let urgency_score :=
    fold_left
      (fun urgency_score keyword =>
         if str_in keyword content_lower then urgency_score + 2 else urgency_score)
      deadline_keywords urgency_score in
  ret (mkUrgency
         (Z.min urgency_score 10)
         dates_found
         (0 <? urgency_score)
         (if 5 <? urgency_score then "HIGH"
          else if 2 <? urgency_score then "MEDIUM"
          else "LOW")).

(** [sum(1 for word in words if word in content)] *)
Definition count_present (words : list string) (content : string) : Z :=
  fold_left Z.add
            (map (fun _ => 1) (List.filter (fun word => str_in word content) words))
            0.

(** The word lists local to [analyze_sentiment]. *)
Definition positive_words : list string :=
  ["gracias"; "thanks"; "excelente"; "great"; "good"; "bueno"; "aprecio"; "feliz"].
Definition negative_words : list string :=
  ["problema"; "problem"; "error"; "bad"; "mal"; "enojado"; "angry"; "frustrado"].

Definition analyze_sentiment (email_content : string) : Py SentimentResult :=
  do print "😊 Analizando sentimiento del email" ;;
  let content_lower := lower email_content in
  let positive_count := count_present positive_words content_lower in
  let negative_count := count_present negative_words content_lower in
  let sentiment :=
    if negative_count <? positive_count then "POSITIVE"
    else if positive_count <? negative_count then "NEGATIVE"
    else "NEUTRAL" in
  confidence <-
    truediv (Z.abs (positive_count - negative_count))
            (Z.max 1 (positive_count + negative_count)) ;;
  ret (mkSentiment sentiment positive_count negative_count confidence).

(** *** Calling a bound method with keyword arguments *)

(** Every keyword of [kwargs] names a parameter. *)
Definition only_keys (params : list string) (kwargs : gmap string string) : bool :=
  bool_decide (dom kwargs ⊆ (list_to_set params : gset string)).

(** The parameters of the registered functions after [self]: those
    without a default and those with one. *)
Definition signatures : list (string * (list string * list string)) :=
  [("classify_email", (["email_content"; "sender"; "subject"], []));
   ("suggest_response", (["email_content"; "category"], ["tone"]));
   ("extract_urgency", (["email_content"], []));
   ("analyze_sentiment", (["email_content"], []))].

(** The keys of [kwargs] fit a signature: every parameter without a default
    is given and every key names a parameter. *)
Definition keys_match (required optional : list string)
           (kwargs : gmap string string) : Prop :=
  (forall k, In k required -> is_Some (kwargs !! k))
  /\ (forall k, is_Some (kwargs !! k) -> In k (required ++ optional)).

(** [self.classify_email] called with the keyword arguments [kwargs] *)
Definition classify_email_kw (kwargs : gmap string string) : Py tool_result :=
  match kwargs !! "email_content", kwargs !! "sender", kwargs !! "subject" with
  | Some email_content, Some sender, Some subject =>
      if only_keys ["email_content"; "sender"; "subject"] kwargs then
        r <- classify_email email_content sender subject ;; ret (OfClassification r)
      else raise (TypeError (bind_error "classify_email" kwargs))
  | _, _, _ => raise (TypeError (bind_error "classify_email" kwargs))
  end.

(** [self.suggest_response] called with the keyword arguments [kwargs]; [tone] defaults to "professional". *)
Definition suggest_response_kw (kwargs : gmap string string) : Py tool_result :=
  match kwargs !! "email_content", kwargs !! "category" with
  | Some email_content, Some category =>
      if only_keys ["email_content"; "category"; "tone"] kwargs then
        r <- suggest_response email_content category
               (default "professional" (kwargs !! "tone")) ;;
        ret (OfSuggestion r)
      else raise (TypeError (bind_error "suggest_response" kwargs))
  | _, _ => raise (TypeError (bind_error "suggest_response" kwargs))
  end.

(** [self.extract_urgency] called with the keyword arguments [kwargs] *)
Definition extract_urgency_kw (kwargs : gmap string string) : Py tool_result :=
  match kwargs !! "email_content" with
  | Some email_content =>
      if only_keys ["email_content"] kwargs then
        r <- extract_urgency email_content ;; ret (OfUrgency r)
      else raise (TypeError (bind_error "extract_urgency" kwargs))
  | None => raise (TypeError (bind_error "extract_urgency" kwargs))
  end.

(** [self.analyze_sentiment] called with the keyword arguments [kwargs] *)
Definition analyze_sentiment_kw (kwargs : gmap string string) : Py tool_result :=
  match kwargs !! "email_content" with
  | Some email_content =>
      if only_keys ["email_content"] kwargs then
        r <- analyze_sentiment email_content ;; ret (OfSentiment r)
      else raise (TypeError (bind_error "analyze_sentiment" kwargs))
  | None => raise (TypeError (bind_error "analyze_sentiment" kwargs))
  end.

(** *** The tool registry and the dispatcher *)

Definition register_tool (name : string)
           (function : gmap string string -> Py tool_result)
           (tools : gmap string (gmap string string -> Py tool_result))
  : gmap string (gmap string string -> Py tool_result) :=
  <[name := function]> tools.

Definition register_tools
           (tools : gmap string (gmap string string -> Py tool_result))
  : gmap string (gmap string string -> Py tool_result) :=
  let tools := register_tool "classify_email" classify_email_kw tools in
  let tools := register_tool "suggest_response" suggest_response_kw tools in
  let tools := register_tool "extract_urgency" extract_urgency_kw tools in
  let tools := register_tool "analyze_sentiment" analyze_sentiment_kw tools in
  tools.

(** [self.tools] once [__init__] has run. *)
Definition tools : gmap string (gmap string string -> Py tool_result) :=
  register_tools ∅.

Definition handle_request (tool_name : string) (kwargs : gmap string string)
  : Py tool_result :=
  match tools !! tool_name with
  | Some function => function kwargs
  | None => ret (ErrorDict ("Tool " +:+ tool_name +:+ " not found"))
  end.

(** [POST /tools/{tool_name}].  The call
    [mcp_server.handle_request(tool_name, **request)] cannot bind a request
    that has a key [tool_name] or [self]. *)
Definition call_tool (tool_name : string) (request : gmap string string)
  : Py Envelope :=
  try_except
    (result <-
       (if bool_decide ("tool_name" ∈ dom request ∨ "self" ∈ dom request) then
          raise (TypeError (bind_error "handle_request" request))
        else handle_request tool_name request) ;;
     ret (mkEnvelope true result))
    (fun e => raise (HTTPException 500 (exn_str e))).


(** The reply of [suggest_response] when the table has no entry. *)
Definition generic_response : string :=
  "He recibido su mensaje. Le responderé pronto.".

(* =================================================================== *)
(** ** Properties of the string primitives *)
(* =================================================================== *)

Lemma append_cons (x : Ascii.ascii) (a b : string) :
  String x a +:+ b = String x (a +:+ b).
Proof. reflexivity. Qed.

Lemma append_assoc (a b c : string) : (a +:+ b) +:+ c = a +:+ b +:+ c.
Proof.
  induction a as [|x a IH]; [reflexivity|].
  rewrite !append_cons. f_equal. exact IH.
Qed.

Lemma startswith_spec (p s : string) :
  startswith p s = true <-> exists t, s = p +:+ t.
Proof.
  revert s. induction p as [|a p IH]; intros s; simpl.
  - split; [intros _; exists s; reflexivity | reflexivity].
  - destruct s as [|b s].
    + split; [discriminate | intros [t Ht]; discriminate].
    + destruct (Ascii.eqb_spec a b) as [->|Hne].
      * rewrite IH. split; intros [t Ht]; exists t.
        -- rewrite append_cons. now rewrite Ht.
        -- rewrite append_cons in Ht. now injection Ht.
      * split; [discriminate|].
        intros [t Ht]. rewrite append_cons in Ht. injection Ht. congruence.
Qed.

(** [str_in] is substring containment: the needle occurs between some
    prefix and some suffix of the haystack. *)
Lemma str_in_spec (needle hay : string) :
  str_in needle hay = true <-> exists pre post, hay = pre +:+ needle +:+ post.
Proof.
  induction hay as [|c hay IH]; simpl.
  - rewrite orb_false_r, startswith_spec. split.
    + intros [t Ht]. exists "", t. exact Ht.
    + intros [pre [post H]]. destruct pre; [exists post; exact H | discriminate].
  - rewrite orb_true_iff, startswith_spec, IH. split.
    + intros [[t Ht] | [pre [post H]]].
      * exists "", t. exact Ht.
      * exists (String c pre), post. rewrite append_cons. now rewrite H.
    + intros [pre [post H]]. destruct pre as [|c' pre].
      * left. exists post. exact H.
      * right. exists pre, post. rewrite append_cons in H. now injection H.
Qed.

Lemma str_split_nonempty (sep : Ascii.ascii) (s : string) :
  str_split sep s <> [].
Proof.
  destruct s as [|c s]; simpl; [discriminate|].
  destruct (Ascii.eqb c sep); [discriminate|].
  destruct (str_split sep s); discriminate.
Qed.

Lemma char_in_cons (sep c : Ascii.ascii) (s : string) :
  str_in (String sep "") (String c s)
  = Ascii.eqb sep c || str_in (String sep "") s.
Proof. simpl. destruct (Ascii.eqb sep c); reflexivity. Qed.

(** No piece of a split holds the separator. *)
Lemma str_split_pieces (sep : Ascii.ascii) (s : string) :
  Forall (fun piece => str_in (String sep "") piece = false) (str_split sep s).
Proof.
  induction s as [|c s IH]; simpl.
  - repeat constructor.
  - destruct (Ascii.eqb_spec c sep) as [->|Hne].
    + constructor; [reflexivity | exact IH].
    + destruct (str_split sep s) as [|piece pieces]; [repeat constructor|].
      * rewrite char_in_cons. simpl. rewrite orb_false_r.
        apply Ascii.eqb_neq. congruence.
      * inversion IH as [|? ? Hp Hps]; subst. constructor; [|exact Hps].
        rewrite char_in_cons, Hp, orb_false_r.
        apply Ascii.eqb_neq. congruence.
Qed.

(** Joining the pieces with the separator gives the string back. *)
Lemma str_split_join (sep : Ascii.ascii) (s : string) :
  String.concat (String sep "") (str_split sep s) = s.
Proof.
  induction s as [|c s IH]; simpl; [reflexivity|].
  pose proof (str_split_nonempty sep s) as Hn.
  destruct (Ascii.eqb_spec c sep) as [->|Hne].
  - destruct (str_split sep s) as [|q qs]; [contradiction|].
    change (String.concat (String sep "") ("" :: q :: qs))
      with (String sep (String.concat (String sep "") (q :: qs))).
    now rewrite IH.
  - destruct (str_split sep s) as [|q qs]; [contradiction|].
    destruct qs as [|q' qs]; [simpl in *; now rewrite IH|].
    change (String.concat (String sep "") (String c q :: q' :: qs))
      with (String c (String.concat (String sep "") (q :: q' :: qs))).
    now rewrite IH.
Qed.

Lemma concat_last (sep : string) (l : list string) :
  l <> [] ->
  exists d, last l = Some d
            /\ (l = [d] \/ exists pre, String.concat sep l = pre +:+ sep +:+ d).
Proof.
  induction l as [|p l IH]; [contradiction|]. intros _.
  destruct l as [|q l].
  - exists p. split; [reflexivity | now left].
  - destruct IH as (d & Hlast & Hd); [discriminate|].
    exists d. split; [exact Hlast|]. right.
    destruct Hd as [Hd | [pre Hpre]].
    + injection Hd as -> ->. exists p. reflexivity.
    + exists (p +:+ sep +:+ pre).
      change (String.concat sep (p :: q :: l))
        with (p +:+ sep +:+ String.concat sep (q :: l)).
      rewrite Hpre. now rewrite !append_assoc.
Qed.

(** The last piece of a split holds no separator and is the whole string
    or what follows its last separator. *)
Lemma str_split_last (sep : Ascii.ascii) (s : string) :
  exists d,
    last (str_split sep s) = Some d
    /\ str_in (String sep "") d = false
    /\ (str_in (String sep "") s = false -> d = s)
    /\ (str_in (String sep "") s = true ->
        exists pre, s = pre +:+ String sep d).
Proof.
  destruct (concat_last (String sep "") (str_split sep s)
              (str_split_nonempty sep s)) as (d & Hlast & Hshape).
  rewrite str_split_join in Hshape.
  assert (Hd : str_in (String sep "") d = false).
  { pose proof (str_split_pieces sep s) as Hall.
    rewrite Forall_forall in Hall. apply Hall.
    apply last_Some_elem_of. exact Hlast. }
  exists d. split; [exact Hlast|]. split; [exact Hd|]. split.
  - intros Hs. destruct Hshape as [Hone | [pre Hpre]].
    + rewrite <- (str_split_join sep s), Hone. reflexivity.
    + exfalso. assert (str_in (String sep "") s = true) as Hin.
      { apply str_in_spec. exists pre, d. exact Hpre. }
      congruence.
  - intros Hs. destruct Hshape as [Hone | [pre Hpre]].
    + exfalso. rewrite <- (str_split_join sep s), Hone in Hs. simpl in Hs.
      congruence.
    + exists pre. exact Hpre.
Qed.

(* =================================================================== *)
(** ** Running the classifier *)
(* =================================================================== *)

Ltac run_py :=
  unfold bind, ret, raise, print, datetime_now_isoformat, try_except in *.

(** [_determine_category] returns, leaves the world alone, does not depend
    on it, and its value is one of the five labels. *)
Lemma determine_category_returns (content sender : string) :
  exists c,
    (forall w, _determine_category content sender w = (Ret c, w))
    /\ c ∈ ["URGENT"; "SPAM"; "NEWSLETTER"; "SUPPORT"; "IMPORTANT"].
Proof.
  unfold _determine_category.
  repeat match goal with
         | |- context [if ?b then _ else _] => destruct b
         end;
    eexists;
    (split; [intros w; reflexivity|]; apply list_elem_of_In; simpl;
     repeat first [left; reflexivity | right]).
Qed.

(** The loop of [_calculate_confidence] adds the bump once per element
    of the list that occurs in the content. *)
Lemma fold_bump_iter (present : string -> bool) (bump : float)
      (l : list string) (base : float) :
  fold_left (fun acc indicator =>
               if present indicator then (acc + bump)%float else acc) l base
  = Nat.iter (length (List.filter present l)) (fun x => (x + bump)%float) base.
Proof.
  revert base. induction l as [|i l IH]; intros base; simpl; [reflexivity|].
  destruct (present i); simpl; rewrite IH; [|reflexivity].
  clear. induction (length (List.filter present l)) as [|n IHn]; simpl;
    [reflexivity | now rewrite IHn].
Qed.

Lemma filter_length_le {A} (f : A -> bool) (l : list A) :
  (length (List.filter f l) <= length l)%nat.
Proof.
  induction l as [|x l IH]; simpl; [lia|]. destruct (f x); simpl; lia.
Qed.

(** No category has more than three strong indicators. *)
Lemma strong_indicators_length (category : string) :
  (length (default [] (strong_indicators !! category)) <= 3)%nat.
Proof.
  unfold strong_indicators.
  repeat (rewrite lookup_insert; case_decide; [simpl; lia|]).
  rewrite lookup_singleton; case_decide; simpl; lia.
Qed.

Lemma calculate_confidence_run (content category : string) (w : World) :
  _calculate_confidence content category w
  = (Ret (py_min
            (Nat.iter
               (length (List.filter (fun indicator => str_in indicator content)
                                    (default [] (strong_indicators !! category))))
               (fun x => (x + 0.15)%float) 0.7%float)
            0.95%float), w).
Proof.
  unfold _calculate_confidence, ret.
  now rewrite (fold_bump_iter (fun indicator => str_in indicator content)).
Qed.

(** The values the cap lets through: no bump, one bump, or the cap. *)
Lemma capped_confidence_values (k : nat) :
  (k <= 3)%nat ->
  let c := py_min (Nat.iter k (fun x => (x + 0.15)%float) 0.7%float) 0.95%float in
  (k = 0%nat /\ c = 0.7%float)
  \/ (k = 1%nat /\ c = 0.85%float)
  \/ ((2 <= k)%nat /\ c = 0.95%float).
Proof.
  intros Hk. destruct k as [|[|[|[|k]]]]; try lia.
  - left. split; reflexivity.
  - right. left. split; reflexivity.
  - right. right. split; [lia | reflexivity].
  - right. right. split; [lia | reflexivity].
Qed.

Lemma capped_confidence_range (k : nat) :
  (k <= 3)%nat ->
  let c := py_min (Nat.iter k (fun x => (x + 0.15)%float) 0.7%float) 0.95%float in
  PrimFloat.leb 0.7 c = true /\ PrimFloat.leb c 0.95 = true.
Proof.
  intros Hk. destruct k as [|[|[|[|k]]]]; try lia; split; reflexivity.
Qed.

(** The [sender_domain] expression of [classify_email]. *)
Lemma sender_domain_returns (sender : string) :
  exists d,
    (forall w,
        (if str_in "@" sender then index_last (str_split "@"%char sender)
         else ret "unknown") w = (Ret d, w))
    /\ (str_in "@" sender = false -> d = "unknown")
    /\ (str_in "@" sender = true ->
        str_in "@" d = false /\ exists pre, sender = pre +:+ "@" +:+ d).
Proof.
  destruct (str_split_last "@"%char sender) as (d & Hlast & Hd & _ & Hyes).
  destruct (str_in "@" sender) eqn:E.
  - exists d. unfold index_last. rewrite Hlast. split; [intros w; reflexivity|].
    split; [discriminate|]. intros _. split; [exact Hd|].
    destruct (Hyes eq_refl) as [pre Hpre]. exists pre. exact Hpre.
  - exists "unknown". split; [intros w; reflexivity|].
    split; [reflexivity | discriminate].
Qed.

(** [classify_email] prints one line, reads the clock once and returns the
    record built from its three sub-computations, none of which depends on
    the world. *)
Lemma classify_email_run (email_content sender subject : string) :
  let content_lower := lower (email_content +:+ " " +:+ subject) in
  exists cat conf dom,
    (forall w, _determine_category content_lower sender w = (Ret cat, w))
    /\ (forall w, _calculate_confidence content_lower cat w = (Ret conf, w))
    /\ (forall w,
          (if str_in "@" sender then index_last (str_split "@"%char sender)
           else ret "unknown") w = (Ret dom, w))
    /\ (forall w,
          classify_email email_content sender subject w
          = (Ret (mkClassification cat conf (wall_clock w) dom),
             mkWorld (wall_clock w)
                     (stdout w ++ ["🔍 Clasificando email: " +:+ subject])%list)).
Proof.
  intros content_lower.
  destruct (determine_category_returns content_lower sender) as (cat & Hcat & _).
  destruct (sender_domain_returns sender) as (dom & Hdom & _).
  pose proof (calculate_confidence_run content_lower cat) as Hconf.
  eexists cat, _, dom. split; [exact Hcat|]. split; [exact Hconf|].
  split; [exact Hdom|]. intros w.
  unfold classify_email. run_py. fold content_lower.
  rewrite Hcat, Hconf. simpl. rewrite Hdom. reflexivity.
Qed.

Lemma existsb_mentions (indicators : list string) (content : string) :
  existsb (fun indicator => str_in indicator content) indicators = true
  <-> mentions indicators content.
Proof. unfold mentions. apply existsb_exists. Qed.

Lemma existsb_not_mentions (indicators : list string) (content : string) :
  existsb (fun indicator => str_in indicator content) indicators = false
  <-> ~ mentions indicators content.
Proof.
  rewrite <- existsb_mentions.
  destruct (existsb _ indicators); split; congruence.
Qed.

(** The branches of [_determine_category] are tried in order and the
    first one whose test succeeds decides. *)
Lemma determine_category_first_match (content sender : string) (w : World) :
  (mentions urgent_indicators content ->
   _determine_category content sender w = (Ret "URGENT", w))
  /\ (~ mentions urgent_indicators content ->
      mentions spam_indicators content ->
      _determine_category content sender w = (Ret "SPAM", w))
  /\ (~ mentions urgent_indicators content ->
      ~ mentions spam_indicators content ->
      mentions newsletter_indicators content ->
      _determine_category content sender w = (Ret "NEWSLETTER", w))
  /\ (~ mentions urgent_indicators content ->
      ~ mentions spam_indicators content ->
      ~ mentions newsletter_indicators content ->
      mentions support_indicators content ->
      _determine_category content sender w = (Ret "SUPPORT", w))
  /\ (~ mentions urgent_indicators content ->
      ~ mentions spam_indicators content ->
      ~ mentions newsletter_indicators content ->
      ~ mentions support_indicators content ->
      _determine_category content sender w
      = (Ret (if str_in "newsletter" (lower sender) then "NEWSLETTER"
              else "IMPORTANT"), w)).
Proof.
  unfold _determine_category.
  repeat split; intros;
    repeat match goal with
           | H : mentions _ _ |- _ => apply existsb_mentions in H; rewrite H
           | H : ~ mentions _ _ |- _ => apply existsb_not_mentions in H; rewrite H
           end;
    try reflexivity.
  destruct (str_in "newsletter" (lower sender)); reflexivity.
Qed.

(* =================================================================== *)
(** ** The category classifier *)
(* =================================================================== *)

(** C1. For every content, sender and subject, [classify_email] returns,
    and the category of its result, the value of [_determine_category] on
    the lower-cased text, is one of the five labels URGENT, SPAM,
    NEWSLETTER, SUPPORT and IMPORTANT; in particular it is not empty. *)
Theorem classify_email_category_closed
        (email_content sender subject : string) (w : World) :
  exists r w',
    classify_email email_content sender subject w = (Ret r, w')
    /\ _determine_category (lower (email_content +:+ " " +:+ subject)) sender w'
       = (Ret (category r), w')
    /\ In (category r) ["URGENT"; "SPAM"; "NEWSLETTER"; "SUPPORT"; "IMPORTANT"]
    /\ category r <> "".
Proof.
  destruct (classify_email_run email_content sender subject)
    as (cat & conf & dom & Hcat & _ & _ & Hrun).
  destruct (determine_category_returns
              (lower (email_content +:+ " " +:+ subject)) sender)
    as (c & Hc & Hin).
  pose proof (Hcat w) as Hcw. rewrite Hc in Hcw. injection Hcw as ->.
  eexists _, _. split; [apply Hrun|]. simpl.
  split; [apply Hcat|].
  apply list_elem_of_In in Hin. split; [exact Hin|].
  intros ->. simpl in Hin.
  repeat (destruct Hin as [Hin | Hin]; [discriminate|]). exact Hin.
Qed.

(** C2. When the lower-cased text holds an urgent indicator [u] and a spam
    indicator [s], [_determine_category] returns URGENT and so does
    [classify_email]. More generally, on every content the tests run in
    the order urgent, spam, newsletter, support, sender contains
    "newsletter", and the first that succeeds decides; IMPORTANT is what
    remains. *)
Theorem urgent_before_spam
        (email_content sender subject u s : string) (w : World) :
  In u urgent_indicators ->
  str_in u (lower (email_content +:+ " " +:+ subject)) = true ->
  In s spam_indicators ->
  str_in s (lower (email_content +:+ " " +:+ subject)) = true ->
  _determine_category (lower (email_content +:+ " " +:+ subject)) sender w
  = (Ret "URGENT", w)
  /\ (exists r w',
        classify_email email_content sender subject w = (Ret r, w')
        /\ category r = "URGENT")
  /\ (forall content sender' w0,
        (mentions urgent_indicators content ->
         _determine_category content sender' w0 = (Ret "URGENT", w0))
        /\ (~ mentions urgent_indicators content ->
            mentions spam_indicators content ->
            _determine_category content sender' w0 = (Ret "SPAM", w0))
        /\ (~ mentions urgent_indicators content ->
            ~ mentions spam_indicators content ->
            mentions newsletter_indicators content ->
            _determine_category content sender' w0 = (Ret "NEWSLETTER", w0))
        /\ (~ mentions urgent_indicators content ->
            ~ mentions spam_indicators content ->
            ~ mentions newsletter_indicators content ->
            mentions support_indicators content ->
            _determine_category content sender' w0 = (Ret "SUPPORT", w0))
        /\ (~ mentions urgent_indicators content ->
            ~ mentions spam_indicators content ->
            ~ mentions newsletter_indicators content ->
            ~ mentions support_indicators content ->
            _determine_category content sender' w0
            = (Ret (if str_in "newsletter" (lower sender') then "NEWSLETTER"
                    else "IMPORTANT"), w0))).
Proof.
  intros Hu Hcu Hs Hcs.
  assert (Hm : mentions urgent_indicators
                        (lower (email_content +:+ " " +:+ subject)))
    by (exists u; split; assumption).
  split; [|split].
  - now apply determine_category_first_match.
  - destruct (classify_email_run email_content sender subject)
      as (cat & conf & dom & Hcat & _ & _ & Hrun).
    eexists _, _. split; [apply Hrun|]. simpl.
    specialize (Hcat w).
    rewrite (proj1 (determine_category_first_match _ sender _) Hm) in Hcat.
    congruence.
  - intros content sender' w0. apply determine_category_first_match.
Qed.

(** C4. For every content and every category, [_calculate_confidence]
    returns 0.7 increased by 0.15 once per strong indicator of the
    category that occurs in the content, capped at 0.95: it is 0.7 without
    such an indicator, 0.85 with one and 0.95 with two or more. The value
    lies between 0.7 and 0.95, and so does the confidence that
    [classify_email] reports. *)
Theorem calculate_confidence_range (content category : string) (w : World) :
  let k := length (List.filter (fun indicator => str_in indicator content)
                               (default [] (strong_indicators !! category))) in
  exists c,
    _calculate_confidence content category w = (Ret c, w)
    /\ c = py_min (Nat.iter k (fun x => (x + 0.15)%float) 0.7%float) 0.95%float
    /\ ((k = 0%nat /\ c = 0.7%float)
        \/ (k = 1%nat /\ c = 0.85%float)
        \/ ((2 <= k)%nat /\ c = 0.95%float))
    /\ PrimFloat.leb 0.7 c = true
    /\ PrimFloat.leb c 0.95 = true
    /\ (forall email_content sender subject w0,
          exists r w',
            classify_email email_content sender subject w0 = (Ret r, w')
            /\ PrimFloat.leb 0.7 (confidence r) = true
            /\ PrimFloat.leb (confidence r) 0.95 = true).
Proof.
  assert (Hk : forall content category,
             (length (List.filter
                        (fun indicator => str_in indicator content)
                        (default [] (strong_indicators !! category))) <= 3)%nat).
  { intros content0 category0.
    etransitivity; [apply filter_length_le | apply strong_indicators_length]. }
  intros k. eexists. split; [apply calculate_confidence_run|].
  split; [reflexivity|].
  split; [apply capped_confidence_values, Hk|].
  split; [apply capped_confidence_range, Hk|].
  split; [apply capped_confidence_range, Hk|].
  intros email_content sender subject w0.
  destruct (classify_email_run email_content sender subject)
    as (cat & conf & dom & _ & Hconf & _ & Hrun).
  specialize (Hconf w0).
  rewrite calculate_confidence_run in Hconf. injection Hconf as <-.
  eexists _, _. split; [apply Hrun|]. simpl. apply capped_confidence_range, Hk.
Qed.

(* =================================================================== *)
(** ** The urgency extractor *)
(* =================================================================== *)

(** A loop that adds a non-negative weight per keyword found never
    decreases the score. *)
Lemma fold_score_ge (present : string -> bool) (weight : Z)
      (keywords : list string) (score : Z) :
  0 <= weight ->
  score <= fold_left (fun score keyword =>
                        if present keyword then score + weight else score)
                     keywords score.
Proof.
  intros Hw. revert score.
  induction keywords as [|k keywords IH]; intros score; simpl; [lia|].
  destruct (present k); [|apply IH].
  etransitivity; [|apply IH]. lia.
Qed.

(** C3. For every content, [extract_urgency] returns; the score it reports
    lies between 0 and 10; the level is HIGH exactly when the score exceeds
    5, MEDIUM exactly when it exceeds 2 without exceeding 5, and LOW
    exactly when it is at most 2; [has_urgency] holds exactly when the score
    is positive. *)
Theorem extract_urgency_levels (email_content : string) (w : World) :
  exists r w',
    extract_urgency email_content w = (Ret r, w')
    /\ 0 <= urgency_score r <= 10
    /\ (urgency_level r = "HIGH" <-> 5 < urgency_score r)
    /\ (urgency_level r = "MEDIUM" <-> 2 < urgency_score r <= 5)
    /\ (urgency_level r = "LOW" <-> urgency_score r <= 2)
    /\ (has_urgency r = true <-> 0 < urgency_score r).
Proof.
  eexists _, _. split; [reflexivity|].
  cbn [urgency_score urgency_level has_urgency].
  set (present := fun keyword => str_in keyword (lower email_content)).
  set (raw1 := fold_left _ urgency_keywords 0).
  set (raw := fold_left _ deadline_keywords raw1).
  assert (H1 : 0 <= raw1) by (apply (fold_score_ge present 1); lia).
  assert (H2 : raw1 <= raw) by (apply (fold_score_ge present 2); lia).
  rewrite Z.ltb_lt.
  destruct (Z.ltb_spec 5 raw); [|destruct (Z.ltb_spec 2 raw)];
    repeat split; intros; try lia; try discriminate; try reflexivity.
Qed.

(** C10. Matching is by substring: on the content "baby", whose only word
    is in neither keyword list, the deadline keyword "by" is found inside
    the word, so [extract_urgency] reports a score of 2 and
    [has_urgency]. *)
Theorem extract_urgency_baby (w : World) :
  lower "baby" = "baby" ->
  exists r w',
    extract_urgency "baby" w = (Ret r, w')
    /\ urgency_score r = 2
    /\ has_urgency r = true
    /\ In "by" deadline_keywords
    /\ str_in "by" "baby" = true
    /\ ~ In "baby" (urgency_keywords ++ deadline_keywords).
Proof.
  intros Hlower. eexists _, _. split; [reflexivity|].
  simpl urgency_score. simpl has_urgency. rewrite Hlower.
  split; [reflexivity|]. split; [reflexivity|].
  split; [simpl; right; left; reflexivity|].
  split; [reflexivity|].
  simpl. intros H.
  repeat (destruct H as [H | H]; [discriminate|]). exact H.
Qed.

(* =================================================================== *)
(** ** The sentiment analyser *)
(* =================================================================== *)

Lemma fold_add_ones {A} (l : list A) (a : Z) :
  fold_left Z.add (map (fun _ => 1) l) a = a + Z.of_nat (length l).
Proof.
  revert a. induction l as [|x l IH]; intros a; simpl length; simpl map;
    simpl fold_left; [lia|].
  rewrite IH. lia.
Qed.

(** The count is the number of listed words that occur in the content. *)
Lemma count_present_length (words : list string) (content : string) :
  count_present words content
  = Z.of_nat (length (List.filter (fun word => str_in word content) words)).
Proof. unfold count_present. rewrite fold_add_ones. lia. Qed.

Lemma count_present_bounds (words : list string) (content : string) :
  0 <= count_present words content <= Z.of_nat (length words).
Proof.
  rewrite count_present_length.
  pose proof (filter_length_le (fun word => str_in word content) words). lia.
Qed.

Lemma count_present_zero (words : list string) (content : string) :
  ~ mentions words content <-> count_present words content = 0.
Proof.
  rewrite count_present_length. unfold mentions.
  induction words as [|word words IH]; simpl.
  - split; [reflexivity | intros _ [k [[] _]]].
  - destruct (str_in word content) eqn:E; simpl.
    + split; [|lia]. intros H. exfalso. apply H. exists word. auto.
    + rewrite <- IH. split; intros H [k [Hk Hin]]; apply H.
      * exists k. auto.
      * destruct Hk as [<- | Hk]; [congruence|]. exists k. auto.
Qed.

(** The quotient of the sentiment confidence, for counts of at most eight
    words each. *)
Lemma sentiment_quotient_range (p n : Z) :
  0 <= p <= 8 -> 0 <= n <= 8 ->
  let c := (float_of_Z (Z.abs (p - n)) / float_of_Z (Z.max 1 (p + n)))%float in
  PrimFloat.leb 0 c = true /\ PrimFloat.leb c 1 = true
  /\ (p = n -> c = 0%float).
Proof.
  intros Hp Hn.
  assert (Ep : p = 0 \/ p = 1 \/ p = 2 \/ p = 3 \/ p = 4 \/ p = 5 \/ p = 6
               \/ p = 7 \/ p = 8) by lia.
  assert (En : n = 0 \/ n = 1 \/ n = 2 \/ n = 3 \/ n = 4 \/ n = 5 \/ n = 6
               \/ n = 7 \/ n = 8) by lia.
  clear Hp Hn.
  repeat (destruct Ep as [-> | Ep]); try subst p;
    repeat (destruct En as [-> | En]); try subst n;
    (split; [vm_compute; reflexivity|]); (split; [vm_compute; reflexivity|]);
    intros H; first [discriminate H | vm_compute; reflexivity].
Qed.

(** [analyze_sentiment] prints one line and returns: the divisor is never
    zero. *)
Lemma analyze_sentiment_run (email_content : string) (w : World) :
  let p := count_present positive_words (lower email_content) in
  let n := count_present negative_words (lower email_content) in
  analyze_sentiment email_content w
  = (Ret (mkSentiment
            (if n <? p then "POSITIVE" else if p <? n then "NEGATIVE" else "NEUTRAL")
            p n
            (float_of_Z (Z.abs (p - n)) / float_of_Z (Z.max 1 (p + n)))%float),
     mkWorld (wall_clock w) (stdout w ++ ["😊 Analizando sentimiento del email"])%list).
Proof.
  intros p n. unfold analyze_sentiment, truediv. run_py. fold p. fold n.
  destruct (Z.eqb_spec (Z.max 1 (p + n)) 0) as [E|_]; [lia | reflexivity].
Qed.

(** C7. [analyze_sentiment] always returns: its divisor is at least 1, so no
    division by zero occurs. When no positive and no negative word occurs,
    both counts are 0, the sentiment is NEUTRAL and the confidence is 0.0.
    Whenever the two counts are equal the sentiment is NEUTRAL and the
    confidence, the quotient of |p - n| by max(1, p + n), is 0.0; in every
    case the confidence lies between 0.0 and 1.0. *)
Theorem analyze_sentiment_neutral (email_content : string) (w : World) :
  let p := count_present positive_words (lower email_content) in
  let n := count_present negative_words (lower email_content) in
  exists r w',
    analyze_sentiment email_content w = (Ret r, w')
    /\ positive_indicators r = p
    /\ negative_indicators r = n
    /\ Z.max 1 (p + n) <> 0
    /\ sentiment_confidence r
       = (float_of_Z (Z.abs (p - n)) / float_of_Z (Z.max 1 (p + n)))%float
    /\ (~ mentions positive_words (lower email_content) ->
        ~ mentions negative_words (lower email_content) ->
        p = 0 /\ n = 0 /\ sentiment r = "NEUTRAL"
        /\ sentiment_confidence r = 0%float)
    /\ (p = n ->
        sentiment r = "NEUTRAL" /\ sentiment_confidence r = 0%float)
    /\ PrimFloat.leb 0 (sentiment_confidence r) = true
    /\ PrimFloat.leb (sentiment_confidence r) 1 = true.
Proof.
  intros p n.
  pose proof (count_present_bounds positive_words (lower email_content)) as Hp.
  pose proof (count_present_bounds negative_words (lower email_content)) as Hn.
  fold p in Hp. fold n in Hn. simpl in Hp, Hn.
  destruct (sentiment_quotient_range p n) as (Hlo & Hhi & Heq); [lia | lia |].
  assert (Hneutral : p = n ->
            (if n <? p then "POSITIVE" else if p <? n then "NEGATIVE"
             else "NEUTRAL") = "NEUTRAL").
  { intros ->. now rewrite Z.ltb_irrefl. }
  eexists _, _. split; [apply analyze_sentiment_run|].
  cbn [positive_indicators negative_indicators sentiment sentiment_confidence].
  fold p. fold n.
  split; [reflexivity|]. split; [reflexivity|]. split; [lia|].
  split; [reflexivity|]. split; [|split; [|split]].
  - intros Hnp Hnn.
    apply count_present_zero in Hnp. apply count_present_zero in Hnn.
    fold p in Hnp. fold n in Hnn.
    assert (Hpn : p = n) by lia. auto.
  - intros Hpn. auto.
  - exact Hlo.
  - exact Hhi.
Qed.

(* =================================================================== *)
(** ** The sender domain *)
(* =================================================================== *)

(** C8, amended. For every sender, [classify_email] returns: the domain is
    computed without raising. Without an '@' in the sender the domain is
    "unknown"; with one, the domain is the text that follows the last '@',
    which holds no '@' and may be empty. *)
Theorem sender_domain_after_last_at
        (email_content sender subject : string) (w : World) :
  exists r w',
    classify_email email_content sender subject w = (Ret r, w')
    /\ (str_in "@" sender = false -> sender_domain r = "unknown")
    /\ (str_in "@" sender = true ->
        str_in "@" (sender_domain r) = false
        /\ exists pre, sender = pre +:+ "@" +:+ sender_domain r).
Proof.
  destruct (classify_email_run email_content sender subject)
    as (cat & conf & dom & _ & _ & Hdom & Hrun).
  destruct (sender_domain_returns sender) as (d & Hd & Hno & Hyes).
  pose proof (Hdom w) as Hw. rewrite Hd in Hw. injection Hw as ->.
  eexists _, _. split; [apply Hrun|]. simpl. split; assumption.
Qed.

(* =================================================================== *)
(** ** Determinism *)
(* =================================================================== *)

Lemma suggest_response_run (email_content category tone : string) (w : World) :
  suggest_response email_content category tone w
  = (Ret (mkSuggestion
            (default "He recibido su mensaje. Le responderé pronto."
                     (default ∅ (responses !! category) !! tone))
            category tone
            (py_len (default "He recibido su mensaje. Le responderé pronto."
                             (default ∅ (responses !! category) !! tone)))),
     mkWorld (wall_clock w)
             (stdout w ++ ["💡 Generando respuesta para categoría: " +:+ category])%list).
Proof. reflexivity. Qed.

Lemma extract_urgency_returns (email_content : string) :
  exists r, forall w,
      extract_urgency email_content w
      = (Ret r, mkWorld (wall_clock w)
                        (stdout w ++ ["⏰ Analizando urgencia del email"])%list).
Proof. eexists. intros w. reflexivity. Qed.

(** C9. Each of the four triage functions is deterministic. Two runs of
    [classify_email] on the same arguments, in worlds that may differ in
    their clock and in what was printed before, both return, and their
    results have the same category, confidence and sender domain; only
    [analysis_time] follows the clock. For [suggest_response],
    [extract_urgency] and [analyze_sentiment] the arguments determine one
    result, returned in every world. *)
Theorem triage_deterministic :
  (forall email_content sender subject w1 w2,
      exists r1 r2 w1' w2',
        classify_email email_content sender subject w1 = (Ret r1, w1')
        /\ classify_email email_content sender subject w2 = (Ret r2, w2')
        /\ category r1 = category r2
        /\ confidence r1 = confidence r2
        /\ sender_domain r1 = sender_domain r2
        /\ analysis_time r1 = wall_clock w1
        /\ analysis_time r2 = wall_clock w2)
  /\ (forall email_content category tone,
        exists r, forall w, exists w',
            suggest_response email_content category tone w = (Ret r, w'))
  /\ (forall email_content,
        exists r, forall w, exists w',
            extract_urgency email_content w = (Ret r, w'))
  /\ (forall email_content,
        exists r, forall w, exists w',
            analyze_sentiment email_content w = (Ret r, w')).
Proof.
  split; [|split; [|split]].
  - intros email_content sender subject w1 w2.
    destruct (classify_email_run email_content sender subject)
      as (cat & conf & dom & _ & _ & _ & Hrun).
    eexists _, _, _, _. split; [apply Hrun|]. split; [apply Hrun|].
    simpl. repeat split.
  - intros email_content category tone. eexists. intros w. eexists.
    apply suggest_response_run.
  - intros email_content.
    destruct (extract_urgency_returns email_content) as [r Hr].
    exists r. intros w. eexists. apply Hr.
  - intros email_content. eexists. intros w. eexists.
    apply analyze_sentiment_run.
Qed.

(* =================================================================== *)
(** ** The dispatcher *)
(* =================================================================== *)

(** The registry holds the four tools and nothing else. *)
Lemma tools_registered (name : string) :
  is_Some (tools !! name)
  <-> In name ["classify_email"; "suggest_response"; "extract_urgency";
               "analyze_sentiment"].
Proof.
  unfold tools, register_tools, register_tool. split.
  - intros [f Hf].
    repeat (rewrite lookup_insert in Hf; case_decide;
            [subst name; simpl; repeat first [left; reflexivity | right]|]).
    rewrite lookup_empty in Hf. discriminate.
  - simpl. intros H.
    repeat (destruct H as [<- | H]; [eexists; reflexivity|]).
    destruct H.
Qed.

Lemma tools_unregistered (name : string) :
  ~ In name ["classify_email"; "suggest_response"; "extract_urgency";
             "analyze_sentiment"] ->
  tools !! name = None.
Proof.
  intros H. destruct (tools !! name) eqn:E; [|reflexivity].
  exfalso. apply H. apply tools_registered. rewrite E. eexists. reflexivity.
Qed.

Lemma only_keys_spec (params : list string) (kwargs : gmap string string) :
  only_keys params kwargs = true
  <-> forall k, is_Some (kwargs !! k) -> In k params.
Proof.
  unfold only_keys. rewrite bool_decide_eq_true, elem_of_subseteq.
  split; intros H k Hk.
  - rewrite <- list_elem_of_In.
    apply (proj1 (elem_of_list_to_set (C:=gset string) k params)).
    apply H. apply elem_of_dom. exact Hk.
  - apply (proj2 (elem_of_list_to_set (C:=gset string) k params)).
    apply list_elem_of_In. apply H. apply elem_of_dom. exact Hk.
Qed.

Lemma keys_match_intro (required optional : list string)
      (kwargs : gmap string string) :
  (forall k, In k required -> is_Some (kwargs !! k)) ->
  only_keys (required ++ optional) kwargs = true ->
  keys_match required optional kwargs.
Proof. intros Hreq Hkeys. split; [exact Hreq | now apply only_keys_spec]. Qed.

Ltac given_keys :=
  let k := fresh "k" in
  let H := fresh "H" in
  intros k H; simpl in H;
  repeat (destruct H as [<- | H]; [eexists; eassumption|]); destruct H.

(** A registered function called with keys that do not fit its signature
    raises [TypeError] before running its body. *)
Lemma classify_email_kw_mismatch (kwargs : gmap string string) (w : World) :
  ~ keys_match ["email_content"; "sender"; "subject"] [] kwargs ->
  classify_email_kw kwargs w
  = (Raise (TypeError (bind_error "classify_email" kwargs)), w).
Proof.
  intros Hnot. unfold classify_email_kw.
  destruct (kwargs !! "email_content") eqn:E1; [|reflexivity].
  destruct (kwargs !! "sender") eqn:E2; [|reflexivity].
  destruct (kwargs !! "subject") eqn:E3; [|reflexivity].
  destruct (only_keys _ kwargs) eqn:Ek; [|reflexivity].
  exfalso. apply Hnot. apply keys_match_intro; [given_keys | exact Ek].
Qed.

Lemma suggest_response_kw_mismatch (kwargs : gmap string string) (w : World) :
  ~ keys_match ["email_content"; "category"] ["tone"] kwargs ->
  suggest_response_kw kwargs w
  = (Raise (TypeError (bind_error "suggest_response" kwargs)), w).
Proof.
  intros Hnot. unfold suggest_response_kw.
  destruct (kwargs !! "email_content") eqn:E1; [|reflexivity].
  destruct (kwargs !! "category") eqn:E2; [|reflexivity].
  destruct (only_keys _ kwargs) eqn:Ek; [|reflexivity].
  exfalso. apply Hnot. apply keys_match_intro; [given_keys | exact Ek].
Qed.

Lemma extract_urgency_kw_mismatch (kwargs : gmap string string) (w : World) :
  ~ keys_match ["email_content"] [] kwargs ->
  extract_urgency_kw kwargs w
  = (Raise (TypeError (bind_error "extract_urgency" kwargs)), w).
Proof.
  intros Hnot. unfold extract_urgency_kw.
  destruct (kwargs !! "email_content") eqn:E1; [|reflexivity].
  destruct (only_keys _ kwargs) eqn:Ek; [|reflexivity].
  exfalso. apply Hnot. apply keys_match_intro; [given_keys | exact Ek].
Qed.

Lemma analyze_sentiment_kw_mismatch (kwargs : gmap string string) (w : World) :
  ~ keys_match ["email_content"] [] kwargs ->
  analyze_sentiment_kw kwargs w
  = (Raise (TypeError (bind_error "analyze_sentiment" kwargs)), w).
Proof.
  intros Hnot. unfold analyze_sentiment_kw.
  destruct (kwargs !! "email_content") eqn:E1; [|reflexivity].
  destruct (only_keys _ kwargs) eqn:Ek; [|reflexivity].
  exfalso. apply Hnot. apply keys_match_intro; [given_keys | exact Ek].
Qed.


(** [call_tool] turns a [TypeError] of [handle_request], and the failure to
    call [handle_request] at all, into an [HTTPException] with status 500. *)
Lemma call_tool_raises (tool_name : string) (request : gmap string string)
      (msg : string) (w : World) :
  handle_request tool_name request w = (Raise (TypeError msg), w) ->
  exists detail,
    call_tool tool_name request w = (Raise (HTTPException 500 detail), w).
Proof.
  intros Hraise. unfold call_tool. run_py.
  destruct (bool_decide _).
  - eexists. reflexivity.
  - rewrite Hraise. eexists. reflexivity.
Qed.

(** C5, amended. For every registered tool and every keyword mapping whose
    keys do not fit the tool's parameters (one is missing, or a key names no
    parameter), [handle_request] does not return a result: it raises the
    [TypeError] of the failed call. It is the endpoint [call_tool] that
    surfaces the failure, as an [HTTPException] with status 500. *)
Theorem handle_request_mismatch_raises
        (tool_name : string) (required optional : list string)
        (kwargs : gmap string string) (w : World) :
  In (tool_name, (required, optional)) signatures ->
  ~ keys_match required optional kwargs ->
  handle_request tool_name kwargs w
  = (Raise (TypeError (bind_error tool_name kwargs)), w)
  /\ exists detail,
      call_tool tool_name kwargs w = (Raise (HTTPException 500 detail), w).
Proof.
  intros Hsig Hnot.
  assert (Hraise : handle_request tool_name kwargs w
                   = (Raise (TypeError (bind_error tool_name kwargs)), w)).
  { unfold signatures in Hsig. simpl in Hsig.
    destruct Hsig as [Hsig | [Hsig | [Hsig | [Hsig | []]]]];
      injection Hsig as <- <- <-; unfold handle_request.
    - change (tools !! "classify_email") with (Some classify_email_kw).
      now apply classify_email_kw_mismatch.
    - change (tools !! "suggest_response") with (Some suggest_response_kw).
      now apply suggest_response_kw_mismatch.
    - change (tools !! "extract_urgency") with (Some extract_urgency_kw).
      now apply extract_urgency_kw_mismatch.
    - change (tools !! "analyze_sentiment") with (Some analyze_sentiment_kw).
      now apply analyze_sentiment_kw_mismatch. }
  split; [exact Hraise|]. eapply call_tool_raises. exact Hraise.
Qed.

(** C6. For every tool name other than the four registered ones,
    [handle_request] returns the dictionary whose [error] entry is
    "Tool <name> not found", whatever the keyword arguments; it does not
    raise and prints nothing. The registry holds exactly classify_email,
    suggest_response, extract_urgency and analyze_sentiment. *)
Theorem handle_request_unknown_tool
        (tool_name : string) (kwargs : gmap string string) (w : World) :
  ~ In tool_name ["classify_email"; "suggest_response"; "extract_urgency";
                  "analyze_sentiment"] ->
  handle_request tool_name kwargs w
  = (Ret (ErrorDict ("Tool " +:+ tool_name +:+ " not found")), w)
  /\ (forall name,
        is_Some (tools !! name)
        <-> In name ["classify_email"; "suggest_response"; "extract_urgency";
                     "analyze_sentiment"]).
Proof.
  intros Hnot. split; [|apply tools_registered].
  unfold handle_request. now rewrite (tools_unregistered tool_name Hnot).
Qed.

(* =================================================================== *)
(** ** The response suggester *)
(* =================================================================== *)

(** The text looked up in [responses]: a table entry for one of the four
    categories with one of the two tones, the generic reply otherwise. *)
Lemma responses_lookup (category tone : string) :
  let text := default generic_response
                      (default ∅ (responses !! category) !! tone) in
  (In category ["URGENT"; "SUPPORT"; "IMPORTANT"; "NEWSLETTER"]
   /\ In tone ["professional"; "friendly"]
   /\ text <> generic_response
   /\ 0 < py_len text)
  \/ (~ (In category ["URGENT"; "SUPPORT"; "IMPORTANT"; "NEWSLETTER"]
         /\ In tone ["professional"; "friendly"])
      /\ text = generic_response).
Proof.
  assert (Htone : forall m : gmap string string,
             tone <> "professional" -> tone <> "friendly" ->
             (exists a b, m = {[ "professional" := a; "friendly" := b ]}) ->
             m !! tone = None).
  { intros m H1 H2 (a & b & ->).
    rewrite lookup_insert_ne by congruence.
    rewrite lookup_singleton_ne by congruence. reflexivity. }
  assert (Hnot : forall P : Prop, tone <> "professional" -> tone <> "friendly" ->
             ~ (P /\ In tone ["professional"; "friendly"])).
  { intros P H1 H2 [_ [H | [H | []]]]; congruence. }
  destruct (decide (category = "URGENT")) as [->|Hu];
    [|destruct (decide (category = "SUPPORT")) as [->|Hs];
      [|destruct (decide (category = "IMPORTANT")) as [->|Hi];
        [|destruct (decide (category = "NEWSLETTER")) as [->|Hn]]]].
  5: { right. split.
       - intros [[H | [H | [H | [H | []]]]] _]; congruence.
       - unfold responses.
         rewrite !lookup_insert_ne by congruence.
         rewrite lookup_singleton_ne by congruence. reflexivity. }
  all: destruct (decide (tone = "professional")) as [->|Hp];
    [left; repeat split; simpl; auto 6; discriminate|];
    (destruct (decide (tone = "friendly")) as [->|Hf];
     [left; repeat split; simpl; auto 6; discriminate|]);
    right; (split; [now apply Hnot|]);
    match goal with
    | |- context [responses !! ?c] =>
        let m := eval vm_compute in (responses !! c) in
        change (responses !! c) with m
    end; simpl default; rewrite Htone; eauto.
Qed.


(** X2. The category that [classify_email] reports, passed on to
    [suggest_response] with one of the two tones, gets the generic reply
    exactly when it is SPAM: the table has an entry for each of the four
    other labels and none for SPAM. *)
Theorem classify_then_suggest
        (email_content sender subject tone : string) (w : World) :
  In tone ["professional"; "friendly"] ->
  exists c w1 s w2,
    classify_email email_content sender subject w = (Ret c, w1)
    /\ suggest_response email_content (category c) tone w1 = (Ret s, w2)
    /\ (suggested_response s = generic_response <-> category c = "SPAM").
Proof.
  intros Htone.
  destruct (classify_email_run email_content sender subject)
    as (cat & conf & dom & Hcat & _ & _ & Hrun).
  destruct (determine_category_returns
              (lower (email_content +:+ " " +:+ subject)) sender)
    as (c & Hc & Hin).
  pose proof (Hcat w) as Hcw. rewrite Hc in Hcw. injection Hcw as ->.
  eexists _, _, _, _. split; [apply Hrun|].
  split; [apply suggest_response_run|].
  cbn [category suggested_response].
  destruct (responses_lookup cat tone) as [(Hc' & _ & Hne & _) | (Hnot & Heq)];
    fold generic_response.
  - split; [intros H; contradiction|].
    intros ->. simpl in Hc'.
    repeat (destruct Hc' as [Hc' | Hc']; [discriminate|]). destruct Hc'.
  - split; [|intros _; exact Heq]. intros _.
    apply list_elem_of_In in Hin. simpl in Hin.
    destruct Hin as [<- | [<- | [<- | [<- | [<- | []]]]]];
      try reflexivity; exfalso; apply Hnot; (split; [|exact Htone]);
      simpl; auto 6.
Qed.

(* =================================================================== *)
(** ** The dispatcher and the endpoints *)
(* =================================================================== *)


Lemma reserved_key_absent (request : gmap string string) :
  request !! "tool_name" = None -> request !! "self" = None ->
  bool_decide ("tool_name" ∈ dom request \/ "self" ∈ dom request) = false.
Proof.
  intros H1 H2. apply bool_decide_eq_false. rewrite !elem_of_dom, H1, H2.
  intros [[v Hv] | [v Hv]]; discriminate.
Qed.




(** Without a reserved key, [call_tool] wraps what [handle_request]
    returns. *)
Lemma call_tool_returns (tool_name : string) (request : gmap string string)
      (r : tool_result) (w w' : World) :
  request !! "tool_name" = None -> request !! "self" = None ->
  handle_request tool_name request w = (Ret r, w') ->
  call_tool tool_name request w = (Ret (mkEnvelope true r), w').
Proof.
  intros H1 H2 Hret. unfold call_tool. run_py.
  rewrite (reserved_key_absent request H1 H2), Hret. reflexivity.
Qed.

(** X3. [handle_request] forwards the keyword arguments to the tool it
    finds under the name: called with exactly the keys the tool takes, it
    does what the direct call on their values does and returns that result
    under the tool's own kind. A call of suggest_response without [tone]
    uses "professional". *)
Theorem handle_request_forwards (w : World) :
  (forall e s j,
      handle_request "classify_email"
        {[ "email_content" := e; "sender" := s; "subject" := j ]} w
      = (r <- classify_email e s j ;; ret (OfClassification r)) w)
  /\ (forall e c t,
        handle_request "suggest_response"
          {[ "email_content" := e; "category" := c; "tone" := t ]} w
        = (r <- suggest_response e c t ;; ret (OfSuggestion r)) w)
  /\ (forall e c,
        handle_request "suggest_response"
          {[ "email_content" := e; "category" := c ]} w
        = (r <- suggest_response e c "professional" ;; ret (OfSuggestion r)) w)
  /\ (forall e,
        handle_request "extract_urgency" {[ "email_content" := e ]} w
        = (r <- extract_urgency e ;; ret (OfUrgency r)) w)
  /\ (forall e,
        handle_request "analyze_sentiment" {[ "email_content" := e ]} w
        = (r <- analyze_sentiment e ;; ret (OfSentiment r)) w).
Proof.
  split; [|split; [|split; [|split]]]; intros; unfold handle_request.
  - change (tools !! "classify_email") with (Some classify_email_kw).
    reflexivity.
  - change (tools !! "suggest_response") with (Some suggest_response_kw).
    reflexivity.
  - change (tools !! "suggest_response") with (Some suggest_response_kw).
    reflexivity.
  - change (tools !! "extract_urgency") with (Some extract_urgency_kw).
    reflexivity.
  - change (tools !! "analyze_sentiment") with (Some analyze_sentiment_kw).
    reflexivity.
Qed.


(** X5. A request for a name that is not registered, without a key
    [tool_name] or [self], is answered by [call_tool] with an envelope whose
    [success] is true and whose result is the "not found" dictionary: the
    endpoint does not report the miss as a failure. *)
Theorem call_tool_unknown_tool_envelope
        (tool_name : string) (request : gmap string string) (w : World) :
  ~ In tool_name ["classify_email"; "suggest_response"; "extract_urgency";
                  "analyze_sentiment"] ->
  request !! "tool_name" = None ->
  request !! "self" = None ->
  call_tool tool_name request w
  = (Ret (mkEnvelope true (ErrorDict ("Tool " +:+ tool_name +:+ " not found"))),
     w).
Proof.
  intros Hnot H1 H2. apply call_tool_returns; [exact H1 | exact H2|].
  unfold handle_request. now rewrite (tools_unregistered tool_name Hnot).
Qed.



(* =================================================================== *)
(** ** More on the classifier *)
(* =================================================================== *)

(** Two different non-NaN float constants are different. *)
Ltac float_discriminate H :=
  match type of H with
  | _ = ?b => apply (f_equal (fun x => PrimFloat.eqb x b)) in H;
              vm_compute in H; discriminate H
  end.

Lemma filter_none_iff (words : list string) (content : string) :
  length (List.filter (fun word => str_in word content) words) = 0%nat
  <-> ~ mentions words content.
Proof.
  rewrite count_present_zero, count_present_length. lia.
Qed.

(** X8. The confidence that [classify_email] reports is the base 0.7
    exactly when no strong indicator of the reported category occurs in the
    lower-cased text. IMPORTANT has no strong indicator, so an IMPORTANT
    email always has confidence 0.7. *)
Theorem classify_email_base_confidence
        (email_content sender subject : string) (w : World) :
  exists r w',
    classify_email email_content sender subject w = (Ret r, w')
    /\ (confidence r = 0.7%float
        <-> ~ mentions (default [] (strong_indicators !! category r))
                       (lower (email_content +:+ " " +:+ subject)))
    /\ (category r = "IMPORTANT" -> confidence r = 0.7%float).
Proof.
  destruct (classify_email_run email_content sender subject)
    as (cat & conf & dom & _ & Hconf & _ & Hrun).
  specialize (Hconf w). rewrite calculate_confidence_run in Hconf.
  injection Hconf as <-.
  eexists _, _. split; [apply Hrun|]. cbn [confidence category].
  set (content := lower (email_content +:+ " " +:+ subject)).
  set (k := length (List.filter (fun indicator => str_in indicator content)
                                (default [] (strong_indicators !! cat)))).
  assert (Hk : (k <= 3)%nat).
  { etransitivity; [apply filter_length_le | apply strong_indicators_length]. }
  assert (Hiff : py_min (Nat.iter k (fun x => (x + 0.15)%float) 0.7%float)
                        0.95%float = 0.7%float
                 <-> ~ mentions (default [] (strong_indicators !! cat)) content).
  { rewrite <- filter_none_iff. fold k.
    destruct (capped_confidence_values k Hk) as [[Hk0 Hc] | [[Hk1 Hc] | [Hk2 Hc]]];
      rewrite Hc; split; intros H; try lia; try reflexivity;
      exfalso; float_discriminate H. }
  split; [exact Hiff|].
  intros ->. apply Hiff. intros (indicator & Hin & _). exact Hin.
Qed.

(** X9. Which label [_determine_category] returns tells which test
    succeeded: URGENT exactly when an urgent indicator occurs; SPAM exactly
    when none does and a spam indicator occurs; SUPPORT exactly when a
    support indicator occurs and none of the three lists before it matches;
    IMPORTANT exactly when nothing matches and the sender has no
    "newsletter"; NEWSLETTER in the two remaining cases. *)
Theorem determine_category_label_iff (content sender : string) (w : World) :
  exists c,
    _determine_category content sender w = (Ret c, w)
    /\ (c = "URGENT" <-> mentions urgent_indicators content)
    /\ (c = "SPAM"
        <-> ~ mentions urgent_indicators content
            /\ mentions spam_indicators content)
    /\ (c = "SUPPORT"
        <-> ~ mentions urgent_indicators content
            /\ ~ mentions spam_indicators content
            /\ ~ mentions newsletter_indicators content
            /\ mentions support_indicators content)
    /\ (c = "IMPORTANT"
        <-> ~ mentions urgent_indicators content
            /\ ~ mentions spam_indicators content
            /\ ~ mentions newsletter_indicators content
            /\ ~ mentions support_indicators content
            /\ str_in "newsletter" (lower sender) = false)
    /\ (c = "NEWSLETTER"
        <-> ~ mentions urgent_indicators content
            /\ ~ mentions spam_indicators content
            /\ (mentions newsletter_indicators content
                \/ (~ mentions support_indicators content
                    /\ str_in "newsletter" (lower sender) = true))).
Proof.
  clear findall bind_error exn_str.
  unfold _determine_category.
  destruct (existsb _ urgent_indicators) eqn:Eu;
    [apply existsb_mentions in Eu | apply existsb_not_mentions in Eu];
    [eexists; split; [reflexivity|]; repeat split; intros;
     try discriminate; tauto|].
  destruct (existsb _ spam_indicators) eqn:Es;
    [apply existsb_mentions in Es | apply existsb_not_mentions in Es];
    [eexists; split; [reflexivity|]; repeat split; intros;
     try discriminate; tauto|].
  destruct (existsb _ newsletter_indicators) eqn:En;
    [apply existsb_mentions in En | apply existsb_not_mentions in En];
    [eexists; split; [reflexivity|]; repeat split; intros;
     try discriminate; tauto|].
  destruct (existsb _ support_indicators) eqn:Ep;
    [apply existsb_mentions in Ep | apply existsb_not_mentions in Ep];
    [eexists; split; [reflexivity|]; repeat split; intros;
     try discriminate; tauto|].
  destruct (str_in "newsletter" (lower sender)) eqn:El;
    eexists; (split; [reflexivity|]); repeat split; intros;
    try discriminate; try tauto;
    repeat match goal with H : _ /\ _ |- _ => destruct H end;
    try tauto; try congruence.
  all: match goal with H : _ \/ _ |- _ => destruct H as [H | [_ H]] end;
    [contradiction | discriminate].
Qed.

(* =================================================================== *)
(** ** More on the urgency extractor *)
(* =================================================================== *)

(** A loop that adds a weight per keyword found adds the weight times the
    number of keywords found. *)
Lemma fold_score_count (present : string -> bool) (weight : Z)
      (keywords : list string) (score : Z) :
  fold_left (fun score keyword =>
               if present keyword then score + weight else score)
            keywords score
  = score + weight * Z.of_nat (length (List.filter present keywords)).
Proof.
  revert score. induction keywords as [|k keywords IH]; intros score; simpl;
    [lia|].
  rewrite IH. destruct (present k); simpl length; lia.
Qed.

(** X10. The urgency score is the number of urgency keywords that occur in
    the lower-cased content plus twice the number of deadline keywords
    that occur, capped at 10. Each keyword counts once, so the sum before
    the cap is at most 8 + 2 * 5 = 18. *)
Theorem urgency_score_formula (email_content : string) (w : World) :
  let u := count_present urgency_keywords (lower email_content) in
  let d := count_present deadline_keywords (lower email_content) in
  exists r w',
    extract_urgency email_content w = (Ret r, w')
    /\ urgency_score r = Z.min (u + 2 * d) 10
    /\ 0 <= u <= 8
    /\ 0 <= d <= 5.
Proof.
  intros u d. eexists _, _. split; [reflexivity|]. cbn [urgency_score].
  rewrite !(fold_score_count (fun keyword => str_in keyword (lower email_content))).
  rewrite <- !count_present_length. fold u. fold d.
  split; [f_equal; lia|].
  split; [apply (count_present_bounds urgency_keywords)
         | apply (count_present_bounds deadline_keywords)].
Qed.

(** X11. [has_urgency] is false exactly when neither an urgency keyword nor
    a deadline keyword occurs in the lower-cased content; the score is then
    0 and the level LOW. One keyword of either list is enough to set it. *)
Theorem no_urgency_iff (email_content : string) (w : World) :
  exists r w',
    extract_urgency email_content w = (Ret r, w')
    /\ (has_urgency r = false
        <-> ~ mentions urgency_keywords (lower email_content)
            /\ ~ mentions deadline_keywords (lower email_content))
    /\ (has_urgency r = false ->
        urgency_score r = 0 /\ urgency_level r = "LOW").
Proof.
  eexists _, _. split; [reflexivity|].
  cbn [urgency_score has_urgency urgency_level].
  rewrite !(fold_score_count (fun keyword => str_in keyword (lower email_content))).
  rewrite <- !count_present_length.
  rewrite !count_present_zero.
  pose proof (count_present_bounds urgency_keywords (lower email_content)) as Hu.
  pose proof (count_present_bounds deadline_keywords (lower email_content)) as Hd.
  set (u := count_present urgency_keywords (lower email_content)) in *.
  set (d := count_present deadline_keywords (lower email_content)) in *.
  rewrite Z.ltb_ge. split; [lia|]. intros H.
  assert (Hz : 0 + 1 * u + 2 * d = 0) by lia. rewrite Hz.
  split; reflexivity.
Qed.

(* =================================================================== *)
(** ** More on the sentiment analyser *)
(* =================================================================== *)

(** X12. [analyze_sentiment] reports POSITIVE exactly when more positive
    than negative words occur, NEGATIVE exactly when more negative than
    positive words occur, and NEUTRAL exactly when the two counts are
    equal; each count is at most 8. *)
Theorem sentiment_label_iff (email_content : string) (w : World) :
  exists r w',
    analyze_sentiment email_content w = (Ret r, w')
    /\ 0 <= positive_indicators r <= 8
    /\ 0 <= negative_indicators r <= 8
    /\ (sentiment r = "POSITIVE"
        <-> negative_indicators r < positive_indicators r)
    /\ (sentiment r = "NEGATIVE"
        <-> positive_indicators r < negative_indicators r)
    /\ (sentiment r = "NEUTRAL"
        <-> positive_indicators r = negative_indicators r).
Proof.
  eexists _, _. split; [apply analyze_sentiment_run|].
  cbn [positive_indicators negative_indicators sentiment].
  pose proof (count_present_bounds positive_words (lower email_content)) as Hp.
  pose proof (count_present_bounds negative_words (lower email_content)) as Hn.
  simpl in Hp, Hn.
  set (p := count_present positive_words (lower email_content)) in *.
  set (n := count_present negative_words (lower email_content)) in *.
  split; [exact Hp|]. split; [exact Hn|].
  destruct (Z.ltb_spec n p); [|destruct (Z.ltb_spec p n)];
    repeat split; intros; try lia; try discriminate; try reflexivity.
Qed.

(** The quotient of the sentiment confidence is 1 exactly when one count
    is zero and the other is not. *)
Lemma sentiment_quotient_one (p n : Z) :
  0 <= p <= 8 -> 0 <= n <= 8 ->
  (float_of_Z (Z.abs (p - n)) / float_of_Z (Z.max 1 (p + n)))%float = 1%float
  <-> (p = 0 \/ n = 0) /\ p <> n.
Proof.
  intros Hp Hn.
  assert (Ep : p = 0 \/ p = 1 \/ p = 2 \/ p = 3 \/ p = 4 \/ p = 5 \/ p = 6
               \/ p = 7 \/ p = 8) by lia.
  assert (En : n = 0 \/ n = 1 \/ n = 2 \/ n = 3 \/ n = 4 \/ n = 5 \/ n = 6
               \/ n = 7 \/ n = 8) by lia.
  clear Hp Hn.
  repeat (destruct Ep as [-> | Ep]); try subst p;
    repeat (destruct En as [-> | En]); try subst n;
    (split; intros H;
     [first [solve [lia] | exfalso; float_discriminate H]
     |first [solve [lia] | vm_compute; reflexivity]]).
Qed.

(** X13. The confidence of [analyze_sentiment] is 1.0 exactly when words of
    one polarity only occur: one count is zero and the other is not. *)
Theorem sentiment_confidence_one_iff (email_content : string) (w : World) :
  exists r w',
    analyze_sentiment email_content w = (Ret r, w')
    /\ (sentiment_confidence r = 1%float
        <-> (positive_indicators r = 0 \/ negative_indicators r = 0)
            /\ positive_indicators r <> negative_indicators r).
Proof.
  eexists _, _. split; [apply analyze_sentiment_run|].
  cbn [positive_indicators negative_indicators sentiment_confidence].
  apply sentiment_quotient_one.
  - apply (count_present_bounds positive_words).
  - apply (count_present_bounds negative_words).
Qed.

Lemma str_in_trans (a b c : string) :
  str_in a b = true -> str_in b c = true -> str_in a c = true.
Proof.
  rewrite !str_in_spec. intros (p1 & q1 & ->) (p2 & q2 & ->).
  exists (p2 +:+ p1), (q1 +:+ q2). now rewrite !append_assoc.
Qed.

(** X14. A content in which "problema" occurs counts for two negative
    words, because "problem" occurs in it as well; with at most one
    positive word the sentiment is then NEGATIVE. *)
Theorem problema_counts_twice (email_content : string) (w : World) :
  str_in "problema" (lower email_content) = true ->
  exists r w',
    analyze_sentiment email_content w = (Ret r, w')
    /\ 2 <= negative_indicators r
    /\ (positive_indicators r <= 1 -> sentiment r = "NEGATIVE").
Proof.
  intros Hproblema.
  assert (Hproblem : str_in "problem" (lower email_content) = true).
  { apply (str_in_trans _ "problema"); [reflexivity | exact Hproblema]. }
  eexists _, _. split; [apply analyze_sentiment_run|].
  cbn [positive_indicators negative_indicators sentiment].
  assert (Hn : 2 <= count_present negative_words (lower email_content)).
  { rewrite count_present_length. unfold negative_words. simpl List.filter.
    rewrite Hproblema, Hproblem.
    repeat match goal with
           | |- context [str_in ?word (lower email_content)] =>
               destruct (str_in word (lower email_content))
           end; simpl length; lia. }
  split; [exact Hn|]. intros Hp.
  destruct (Z.ltb_spec (count_present negative_words (lower email_content))
                       (count_present positive_words (lower email_content)));
    [lia|].
  destruct (Z.ltb_spec (count_present positive_words (lower email_content))
                       (count_present negative_words (lower email_content)));
    [reflexivity | lia].
Qed.

(* =================================================================== *)
(** ** The rule-based classifier of mcp.py *)
(* =================================================================== *)

(** The third test of [rule_based_classify] decides only when the first two
    fail. *)
Lemma rule_based_third_test (subject body : string) :
  label (rule_based_classify lower subject body) = "Soporte"
  <-> ~ mentions rule_spam_words (lower (subject +:+ " " +:+ body))
      /\ ~ mentions rule_urgent_words (lower (subject +:+ " " +:+ body))
      /\ mentions rule_support_words (lower (subject +:+ " " +:+ body)).
Proof.
  clear findall bind_error exn_str.
  unfold rule_based_classify.
  destruct (existsb _ rule_spam_words) eqn:Es;
    [apply existsb_mentions in Es | apply existsb_not_mentions in Es];
    [cbn [label]; split; [discriminate | tauto]|].
  destruct (existsb _ rule_urgent_words) eqn:Eu;
    [apply existsb_mentions in Eu | apply existsb_not_mentions in Eu];
    [cbn [label]; split; [discriminate | tauto]|].
  destruct (existsb _ rule_support_words) eqn:Ep;
    [apply existsb_mentions in Ep | apply existsb_not_mentions in Ep];
    cbn [label]; split; try discriminate; tauto.
Qed.

(** X15. [rule_based_classify] tries spam, then urgency, then support: the
    label is Spam exactly when a spam word occurs in the lower-cased text,
    Urgente exactly when none does and an urgency word occurs, Soporte
    exactly when neither does and a support word occurs, and Interesante
    exactly when no word of the three lists occurs. *)
Theorem rule_based_label_iff (subject body : string) :
  let text := lower (subject +:+ " " +:+ body) in
  let r := rule_based_classify lower subject body in
  In (label r) ["Spam"; "Urgente"; "Soporte"; "Interesante"]
  /\ (label r = "Spam" <-> mentions rule_spam_words text)
  /\ (label r = "Urgente"
      <-> ~ mentions rule_spam_words text /\ mentions rule_urgent_words text)
  /\ (label r = "Soporte"
      <-> ~ mentions rule_spam_words text
          /\ ~ mentions rule_urgent_words text
          /\ mentions rule_support_words text)
  /\ (label r = "Interesante"
      <-> ~ mentions rule_spam_words text
          /\ ~ mentions rule_urgent_words text
          /\ ~ mentions rule_support_words text).
Proof.
  clear findall bind_error exn_str.
  intros text r. subst r. unfold rule_based_classify. fold text.
  destruct (existsb _ rule_spam_words) eqn:Es;
    [apply existsb_mentions in Es | apply existsb_not_mentions in Es];
    [cbn [label]; repeat split; intros; try discriminate; simpl; tauto|].
  destruct (existsb _ rule_urgent_words) eqn:Eu;
    [apply existsb_mentions in Eu | apply existsb_not_mentions in Eu];
    [cbn [label]; repeat split; intros; try discriminate; simpl; tauto|].
  destruct (existsb _ rule_support_words) eqn:Ep;
    [apply existsb_mentions in Ep | apply existsb_not_mentions in Ep];
    cbn [label]; repeat split; intros; try discriminate; simpl; tauto.
Qed.

(** X16. The two classifiers rank urgency and spam in opposite orders: on
    a message whose lower-cased texts hold both "urgent" and "win",
    [_determine_category] answers URGENT and [rule_based_classify] answers
    Spam. *)
Theorem classifiers_disagree (subject body sender : string) (w : World) :
  str_in "urgent" (lower (body +:+ " " +:+ subject)) = true ->
  str_in "win" (lower (subject +:+ " " +:+ body)) = true ->
  _determine_category (lower (body +:+ " " +:+ subject)) sender w
  = (Ret "URGENT", w)
  /\ label (rule_based_classify lower subject body) = "Spam".
Proof.
  intros Hu Hw. split.
  - apply determine_category_first_match.
    exists "urgent". split; [simpl; auto | exact Hu].
  - unfold rule_based_classify.
    assert (E : existsb (fun k => str_in k (lower (subject +:+ " " +:+ body)))
                        rule_spam_words = true).
    { apply existsb_mentions. exists "win". split; [simpl; auto | exact Hw]. }
    rewrite E. reflexivity.
Qed.

(** X17. Two of the support words of [rule_based_classify] never decide:
    "helpdesk" holds the urgency word "help", and "support@" holds
    "support". The label is Soporte exactly when no spam word and no urgency
    word occurs and "ticket" or "support" does; a text with "helpdesk" is
    never labelled Soporte. *)
Theorem rule_based_support_iff (subject body : string) :
  let text := lower (subject +:+ " " +:+ body) in
  let r := rule_based_classify lower subject body in
  (label r = "Soporte"
   <-> ~ mentions rule_spam_words text
       /\ ~ mentions rule_urgent_words text
       /\ (str_in "ticket" text = true \/ str_in "support" text = true))
  /\ (str_in "helpdesk" text = true -> label r <> "Soporte").
Proof.
  intros text r.
  pose proof (rule_based_third_test subject body) as Hsup.
  fold text in Hsup. fold r in Hsup.
  assert (Hhelp : str_in "helpdesk" text = true -> mentions rule_urgent_words text).
  { intros H. exists "help". split; [simpl; auto 6|].
    apply (str_in_trans _ "helpdesk"); [reflexivity | exact H]. }
  assert (Hwords : ~ mentions rule_urgent_words text ->
                   (mentions rule_support_words text
                    <-> str_in "ticket" text = true \/ str_in "support" text = true)).
  { intros Hnu. split.
    - intros (k & Hin & Hk). simpl in Hin.
      destruct Hin as [<- | [<- | [<- | [<- | []]]]].
      + now left.
      + now right.
      + exfalso. now apply Hnu, Hhelp.
      + right. apply (str_in_trans _ "support@"); [reflexivity | exact Hk].
    - intros [H | H].
      + exists "ticket". split; [simpl; auto | exact H].
      + exists "support". split; [simpl; auto | exact H]. }
  split.
  - rewrite Hsup. split.
    + intros (Hs & Hu & Hp). split; [exact Hs|]. split; [exact Hu|].
      now apply Hwords.
    + intros (Hs & Hu & Hp). split; [exact Hs|]. split; [exact Hu|].
      now apply Hwords.
  - intros Hd Hl. apply Hsup in Hl as (_ & Hu & _). now apply Hu, Hhelp.
Qed.

(* =================================================================== *)
(** ** The registry *)
(* =================================================================== *)

(** X18. Whatever a registry held before, [register_tools] binds the four
    names to the four tools, replacing earlier entries under these names,
    and leaves every other name as it was; registering twice changes
    nothing more. *)
Theorem register_tools_binds
        (registry : gmap string (gmap string string -> Py tool_result)) :
  register_tools registry !! "classify_email" = Some classify_email_kw
  /\ register_tools registry !! "suggest_response" = Some suggest_response_kw
  /\ register_tools registry !! "extract_urgency" = Some extract_urgency_kw
  /\ register_tools registry !! "analyze_sentiment" = Some analyze_sentiment_kw
  /\ (forall name,
        ~ In name ["classify_email"; "suggest_response"; "extract_urgency";
                   "analyze_sentiment"] ->
        register_tools registry !! name = registry !! name)
  /\ register_tools (register_tools registry) = register_tools registry.
Proof.
  unfold register_tools, register_tool.
  split; [|split; [|split; [|split; [|split]]]].
  - now rewrite !lookup_insert_ne, lookup_insert_eq by discriminate.
  - now rewrite !lookup_insert_ne, lookup_insert_eq by discriminate.
  - now rewrite !lookup_insert_ne, lookup_insert_eq by discriminate.
  - now rewrite lookup_insert_eq.
  - intros name Hname. simpl in Hname.
    rewrite !lookup_insert_ne; [reflexivity|..]; intros <-; apply Hname;
      repeat first [left; reflexivity | right].
  - apply map_eq. intros name.
    destruct (decide (name = "analyze_sentiment")) as [->|H4];
      [now rewrite !lookup_insert_eq|].
    rewrite !(lookup_insert_ne _ "analyze_sentiment") by congruence.
    destruct (decide (name = "extract_urgency")) as [->|H3];
      [now rewrite !lookup_insert_eq|].
    rewrite !(lookup_insert_ne _ "extract_urgency") by congruence.
    destruct (decide (name = "suggest_response")) as [->|H2];
      [now rewrite !lookup_insert_eq|].
    rewrite !(lookup_insert_ne _ "suggest_response") by congruence.
    destruct (decide (name = "classify_email")) as [->|H1];
      [now rewrite !lookup_insert_eq|].
    now rewrite !lookup_insert_ne by congruence.
Qed.

(* =================================================================== *)
(** ** The health endpoint of main.py *)
(* =================================================================== *)

(** X19. [health_check] of main.py never raises and reports one of
    healthy, degraded and unhealthy. It reports unhealthy exactly when the
    Redis ping raises, and healthy exactly when the ping returns true, the
    Gmail service is set and its profile call returns. A failing Gmail call
    is swallowed by [GmailHandler.health_check]: it gives degraded, never
    unhealthy. *)
Theorem health_check_report
        (redis_ping : Py bool) (service : bool) (get_profile : Py unit)
        (w : World) :
  exists r w',
    health_check redis_ping service get_profile exn_str w = (Ret r, w')
    /\ In (report_status r) ["healthy"; "degraded"; "unhealthy"]
    /\ (report_status r = "unhealthy"
        <-> exists e w1, redis_ping w = (Raise e, w1))
    /\ (report_status r = "healthy"
        <-> exists w1 w2,
            redis_ping w = (Ret true, w1)
            /\ service = true
            /\ get_profile w1 = (Ret tt, w2)).
Proof.
  clear lower findall bind_error.
  unfold health_check, gmail_health_check. run_py.
  destruct (redis_ping w) as [[redis_ok | e] w1] eqn:Er.
  - assert (Hno : ~ exists e w3, (Ret redis_ok, w1) = (@Raise bool e, w3)).
    { intros (e & w3 & H). discriminate H. }
    destruct service.
    + destruct (get_profile w1) as [[[] | e'] w2] eqn:Eg.
      * eexists _, _. split; [reflexivity|].
        destruct redis_ok; cbn [report_status forallb andb];
          (split; [simpl; auto|]); (split; [split; [discriminate | intros H; now apply Hno in H]|]).
        -- split; [intros _; exists w1, w2; auto | reflexivity].
        -- split; [discriminate|].
           intros (w3 & w4 & H & _); discriminate H.
      * eexists _, _. split; [reflexivity|].
        destruct redis_ok; cbn [report_status forallb andb];
          (split; [simpl; auto|]); (split; [split; [discriminate | intros H; now apply Hno in H]|]);
          (split; [discriminate|]);
          intros (w3 & w4 & H1 & _ & H2);
          first [discriminate H1
                | injection H1 as <-; rewrite Eg in H2; discriminate H2].
    + eexists _, _. split; [reflexivity|].
      destruct redis_ok; cbn [report_status forallb andb];
        (split; [simpl; auto|]); (split; [split; [discriminate | intros H; now apply Hno in H]|]);
        (split; [discriminate|]);
        intros (w3 & w4 & _ & H & _); discriminate H.
  - eexists _, _. split; [reflexivity|]. cbn [report_status].
    split; [simpl; auto|]. split.
    + split; [intros _; eauto | reflexivity].
    + split; [discriminate | intros (w3 & w4 & H & _); discriminate H].
Qed.

End MCPServer.

(* ===================================================================== *)
(** ** The theorems at concrete inputs *)
(* ===================================================================== *)

(** An email that mentions both "urgent" and "win" is URGENT. *)
Lemma urgent_before_spam_witness :
  _determine_category ascii_lower (ascii_lower ("You WIN a prize" +:+ " " +:+ "Urgent"))
                      "promo@store.com" world0
  = (Ret "URGENT", world0)
  /\ exists r w',
      classify_email ascii_lower "You WIN a prize" "promo@store.com" "Urgent" world0
      = (Ret r, w')
      /\ category r = "URGENT".
Proof.
  pose proof (urgent_before_spam ascii_lower "You WIN a prize" "promo@store.com"
                "Urgent" "urgent" "win" world0) as H.
  destruct H as (H1 & H2 & _).
  - simpl. tauto.
  - reflexivity.
  - simpl. tauto.
  - reflexivity.
  - split; [exact H1 | exact H2].
Defined.

(** "baby" is already lower case. *)
Lemma extract_urgency_baby_witness :
  ascii_lower "baby" = "baby"
  /\ exists r w',
      extract_urgency ascii_lower no_match "baby" world0 = (Ret r, w')
      /\ urgency_score r = 2
      /\ has_urgency r = true.
Proof.
  split; [reflexivity|].
  destruct (extract_urgency_baby ascii_lower no_match world0 eq_refl)
    as (r & w' & Hrun & Hscore & Hurgent & _).
  exists r, w'. split; [exact Hrun|]. split; [exact Hscore | exact Hurgent].
Defined.

(** A sender with a domain, and a sender that ends in '@'. *)
Lemma sender_domain_after_last_at_witness :
  (exists r w',
      classify_email ascii_lower "hello" "ceo@company.com" "hi" world0 = (Ret r, w')
      /\ sender_domain r = "company.com")
  /\ (exists r w',
        classify_email ascii_lower "hello" "nobody" "hi" world0 = (Ret r, w')
        /\ sender_domain r = "unknown").
Proof.
  split.
  - destruct (sender_domain_after_last_at ascii_lower "hello" "ceo@company.com"
                "hi" world0) as (r & w' & Hrun & _ & Hyes).
    exists r, w'. split; [exact Hrun|].
    destruct (Hyes eq_refl) as [_ [pre Hpre]].
    vm_compute in Hrun. injection Hrun as <- _. reflexivity.
  - destruct (sender_domain_after_last_at ascii_lower "hello" "nobody"
                "hi" world0) as (r & w' & Hrun & Hno & _).
    exists r, w'. split; [exact Hrun | exact (Hno eq_refl)].
Defined.

(** C8 as stated fails: a sender that ends in '@' has no domain after the
    '@', and its domain is the empty string, not "unknown". *)
Lemma sender_ending_in_at_is_not_unknown :
  exists r w',
    classify_email ascii_lower "hello" "user@" "hi" world0 = (Ret r, w')
    /\ str_in "@" "user@" = true
    /\ sender_domain r = ""
    /\ sender_domain r <> "unknown".
Proof.
  eexists _, _. split; [vm_compute; reflexivity|].
  split; [reflexivity|]. split; [reflexivity | discriminate].
Qed.

(** Content without any listed word: both counts are zero. *)
Lemma analyze_sentiment_neutral_witness :
  exists r w',
    analyze_sentiment ascii_lower "See you on Monday" world0 = (Ret r, w')
    /\ sentiment r = "NEUTRAL"
    /\ sentiment_confidence r = 0%float.
Proof.
  destruct (analyze_sentiment_neutral ascii_lower "See you on Monday" world0)
    as (r & w' & Hrun & _ & _ & _ & _ & Hzero & _).
  exists r, w'. split; [exact Hrun|].
  destruct Hzero as (_ & _ & Hs & Hc).
  - apply count_present_zero. reflexivity.
  - apply count_present_zero. reflexivity.
  - split; [exact Hs | exact Hc].
Defined.

(** A call of extract_urgency without its argument, and one with a key
    that names no parameter. *)
Lemma handle_request_mismatch_raises_witness :
  (handle_request ascii_lower no_match bind_error_text "extract_urgency" ∅ world0
   = (Raise (TypeError (bind_error_text "extract_urgency" ∅)), world0)
   /\ exists detail,
       call_tool ascii_lower no_match bind_error_text exn_text
                 "extract_urgency" ∅ world0
       = (Raise (HTTPException 500 detail), world0))
  /\ (handle_request ascii_lower no_match bind_error_text "extract_urgency"
                     {[ "email_content" := "hello"; "priority" := "high" ]} world0
      = (Raise (TypeError
                  (bind_error_text "extract_urgency"
                     {[ "email_content" := "hello"; "priority" := "high" ]})),
         world0)
      /\ exists detail,
          call_tool ascii_lower no_match bind_error_text exn_text
                    "extract_urgency"
                    {[ "email_content" := "hello"; "priority" := "high" ]} world0
          = (Raise (HTTPException 500 detail), world0)).
Proof.
  split.
  - apply (handle_request_mismatch_raises ascii_lower no_match bind_error_text
             exn_text "extract_urgency" ["email_content"] [] ∅ world0).
    + simpl. right. right. left. reflexivity.
    + intros [Hreq _]. destruct (Hreq "email_content") as [v Hv].
      * simpl. left. reflexivity.
      * rewrite lookup_empty in Hv. discriminate Hv.
  - apply (handle_request_mismatch_raises ascii_lower no_match bind_error_text
             exn_text "extract_urgency" ["email_content"] []
             {[ "email_content" := "hello"; "priority" := "high" ]} world0).
    + simpl. right. right. left. reflexivity.
    + intros [_ Hkeys]. destruct (Hkeys "priority") as [H | []].
      * eexists. reflexivity.
      * discriminate H.
Defined.

(** C5 as stated fails: extract_urgency is registered, the empty mapping
    lacks its argument, and [handle_request] raises instead of returning a
    result. *)
Lemma handle_request_missing_argument_raises :
  is_Some (tools ascii_lower no_match bind_error_text !! "extract_urgency")
  /\ ~ keys_match ["email_content"] [] ∅
  /\ handle_request ascii_lower no_match bind_error_text "extract_urgency" ∅ world0
     = (Raise (TypeError "extract_urgency() got keyword arguments it cannot bind"),
        world0)
  /\ ~ exists r w',
        handle_request ascii_lower no_match bind_error_text "extract_urgency" ∅ world0
        = (Ret r, w').
Proof.
  split; [eexists; reflexivity|]. split; [|split].
  - intros [Hreq _]. destruct (Hreq "email_content") as [v Hv].
    + simpl. left. reflexivity.
    + rewrite lookup_empty in Hv. discriminate Hv.
  - reflexivity.
  - intros (r & w' & H). discriminate H.
Qed.

(** The name "nonexistent" is not registered. *)
Lemma handle_request_unknown_tool_witness :
  handle_request ascii_lower no_match bind_error_text "nonexistent"
                 {[ "email_content" := "hello" ]} world0
  = (Ret (ErrorDict "Tool nonexistent not found"), world0).
Proof.
  apply (handle_request_unknown_tool ascii_lower no_match bind_error_text
           "nonexistent" {[ "email_content" := "hello" ]} world0).
  simpl. intros H.
  repeat (destruct H as [H | H]; [discriminate H|]). exact H.
Defined.

(* ===================================================================== *)
(** ** The model on concrete messages *)
(* ===================================================================== *)

(** An urgent message from a sender with a domain. *)
Example classify_urgent_scenario :
  classify_email ascii_lower "Necesito esto hoy, es una emergencia"
                 "ceo@company.com" "URGENTE: revisión crítica" world0
  = (Ret (mkClassification "URGENT" 0.85 "2024-05-12T10:00:00" "company.com"),
     mkWorld "2024-05-12T10:00:00"
             ["🔍 Clasificando email: URGENTE: revisión crítica"]).
Proof. vm_compute. reflexivity. Qed.

(** A digest is a newsletter by its content. *)
Example classify_newsletter_scenario :
  exists r w',
    classify_email ascii_lower "newsletter update" "newsletter@technews.com"
                   "Weekly Digest" world0 = (Ret r, w')
    /\ category r = "NEWSLETTER"
    /\ confidence r = 0.85%float
    /\ sender_domain r = "technews.com".
Proof. eexists _, _. split; [vm_compute; reflexivity|]. repeat split. Qed.

(** With no keyword in the content, the sender decides. *)
Example classify_sender_fallback_scenario :
  exists r w',
    classify_email ascii_lower "See you on Monday" "Newsletter@technews.com"
                   "Lunch" world0 = (Ret r, w')
    /\ category r = "NEWSLETTER"
    /\ confidence r = 0.7%float.
Proof. eexists _, _. split; [vm_compute; reflexivity|]. repeat split. Qed.

(** A request for an unknown tool is answered with a success envelope that
    carries the error dictionary. *)
Example call_tool_unknown_scenario :
  call_tool ascii_lower no_match bind_error_text exn_text "nonexistent" ∅ world0
  = (Ret (mkEnvelope true (ErrorDict "Tool nonexistent not found")), world0).
Proof. vm_compute. reflexivity. Qed.

(** The optional [tone] of suggest_response may be left out. *)
Example call_tool_default_tone_scenario :
  exists r w',
    call_tool ascii_lower no_match bind_error_text exn_text "suggest_response"
              {[ "email_content" := "hello"; "category" := "SUPPORT" ]} world0
    = (Ret (mkEnvelope true (OfSuggestion r)), w')
    /\ tone r = "professional"
    /\ response_length r = 129.
Proof. eexists _, _. split; [vm_compute; reflexivity|]. repeat split. Qed.

(* ===================================================================== *)
(** ** The further properties at concrete inputs *)
(* ===================================================================== *)

(** A spam message gets the generic reply, a support request does not. *)
Lemma classify_then_suggest_witness :
  (exists c w1 s w2,
      classify_email ascii_lower "You WIN a prize" "promo@store.com" "Offer" world0
      = (Ret c, w1)
      /\ suggest_response "You WIN a prize" (category c) "friendly" w1 = (Ret s, w2)
      /\ category c = "SPAM"
      /\ suggested_response s = generic_response)
  /\ (exists c w1 s w2,
        classify_email ascii_lower "I need help" "customer@shop.com" "Login" world0
        = (Ret c, w1)
        /\ suggest_response "I need help" (category c) "friendly" w1 = (Ret s, w2)
        /\ category c = "SUPPORT"
        /\ suggested_response s <> generic_response).
Proof.
  split.
  - destruct (classify_then_suggest ascii_lower "You WIN a prize"
                "promo@store.com" "Offer" "friendly" world0)
      as (c & w1 & s & w2 & Hc & Hs & Hiff).
    + simpl. right. left. reflexivity.
    + exists c, w1, s, w2. split; [exact Hc|]. split; [exact Hs|].
      assert (Hcat : category c = "SPAM").
      { vm_compute in Hc. injection Hc as <- _. reflexivity. }
      split; [exact Hcat | now apply Hiff].
  - destruct (classify_then_suggest ascii_lower "I need help"
                "customer@shop.com" "Login" "friendly" world0)
      as (c & w1 & s & w2 & Hc & Hs & Hiff).
    + simpl. right. left. reflexivity.
    + exists c, w1, s, w2. split; [exact Hc|]. split; [exact Hs|].
      assert (Hcat : category c = "SUPPORT").
      { vm_compute in Hc. injection Hc as <- _. reflexivity. }
      split; [exact Hcat|]. intros H. apply Hiff in H. congruence.
Defined.


(** A request for a tool that does not exist. *)
Lemma call_tool_unknown_tool_envelope_witness :
  call_tool ascii_lower no_match bind_error_text exn_text "translate"
            {[ "email_content" := "hello" ]} world0
  = (Ret (mkEnvelope true (ErrorDict "Tool translate not found")), world0).
Proof.
  apply (call_tool_unknown_tool_envelope ascii_lower no_match bind_error_text
           exn_text "translate" {[ "email_content" := "hello" ]} world0).
  - simpl. intros H.
    repeat (destruct H as [H | H]; [discriminate H|]). exact H.
  - reflexivity.
  - reflexivity.
Defined.

(** A message without any keyword is IMPORTANT with the base confidence. *)
Lemma classify_email_base_confidence_witness :
  exists r w',
    classify_email ascii_lower "See you on Monday" "ana@example.org" "Lunch" world0
    = (Ret r, w')
    /\ category r = "IMPORTANT"
    /\ confidence r = 0.7%float.
Proof.
  destruct (classify_email_base_confidence ascii_lower "See you on Monday"
              "ana@example.org" "Lunch" world0) as (r & w' & Hrun & _ & Himp).
  exists r, w'. split; [exact Hrun|].
  assert (Hcat : category r = "IMPORTANT").
  { vm_compute in Hrun. injection Hrun as <- _. reflexivity. }
  split; [exact Hcat | exact (Himp Hcat)].
Defined.

(** A message without any urgency or deadline keyword. *)
Lemma no_urgency_iff_witness :
  exists r w',
    extract_urgency ascii_lower no_match "See you on Monday" world0 = (Ret r, w')
    /\ has_urgency r = false
    /\ urgency_score r = 0
    /\ urgency_level r = "LOW".
Proof.
  destruct (no_urgency_iff ascii_lower no_match "See you on Monday" world0)
    as (r & w' & Hrun & _ & Himp).
  exists r, w'. split; [exact Hrun|].
  assert (Hno : has_urgency r = false).
  { vm_compute in Hrun. injection Hrun as <- _. reflexivity. }
  split; [exact Hno | exact (Himp Hno)].
Defined.

(** "Tengo un problema" holds "problema" and therefore "problem". *)
Lemma problema_counts_twice_witness :
  exists r w',
    analyze_sentiment ascii_lower "Gracias, tengo un problema" world0 = (Ret r, w')
    /\ 2 <= negative_indicators r
    /\ sentiment r = "NEGATIVE".
Proof.
  destruct (problema_counts_twice ascii_lower "Gracias, tengo un problema" world0
              eq_refl) as (r & w' & Hrun & Hneg & Himp).
  exists r, w'. split; [exact Hrun|]. split; [exact Hneg|].
  apply Himp. vm_compute in Hrun. injection Hrun as <- _. discriminate.
Defined.

(** One message, two answers. *)
Lemma classifiers_disagree_witness :
  _determine_category ascii_lower
    (ascii_lower ("Claim it today" +:+ " " +:+ "URGENT: you win")) "promo@store.com"
    world0
  = (Ret "URGENT", world0)
  /\ label (rule_based_classify ascii_lower "URGENT: you win" "Claim it today")
     = "Spam".
Proof.
  apply (classifiers_disagree ascii_lower "URGENT: you win" "Claim it today"
           "promo@store.com" world0); reflexivity.
Defined.

(** A message to the helpdesk is labelled Urgente. *)
Lemma rule_based_support_iff_witness :
  label (rule_based_classify ascii_lower "Helpdesk" "My badge is lost") <> "Soporte"
  /\ label (rule_based_classify ascii_lower "Helpdesk" "My badge is lost") = "Urgente".
Proof.
  split; [|reflexivity].
  apply (rule_based_support_iff ascii_lower "Helpdesk" "My badge is lost").
  reflexivity.
Defined.

(** Registering over a registry that already has an entry under another
    name keeps that entry. *)
Lemma register_tools_binds_witness :
  register_tools ascii_lower no_match bind_error_text
                 {[ "translate" := extract_urgency_kw ascii_lower no_match bind_error_text ]}
  !! "translate"
  = Some (extract_urgency_kw ascii_lower no_match bind_error_text).
Proof.
  destruct (register_tools_binds ascii_lower no_match bind_error_text
              {[ "translate" := extract_urgency_kw ascii_lower no_match bind_error_text ]})
    as (_ & _ & _ & _ & Hother & _).
  rewrite Hother.
  - apply lookup_singleton_eq.
  - simpl. intros H.
    repeat (destruct H as [H | H]; [discriminate H|]). exact H.
Defined.
